(** * TypeScriptPlugin: the language-service bridge of the Svelte language server

    A shallow embedding of [src/plugins/TypeScriptPlugin.ts]: the document
    snapshots, the language-service host with its table of in-memory
    documents, the restart of the language service on a script-kind change,
    and the adapters that turn engine results into diagnostics, hovers and
    formatting edits.

    The TypeScript engine, Node's [path] module, prettier, detect-indent and
    indent-string are libraries the plugin calls; their functions are the
    fields of the class [Libraries] and every definition is parametric in
    them.  A library call that may throw returns a [Result]. *)

From Stdlib Require Import ZArith String Ascii List Sorted.
From stdpp Require Import base option list gmap strings pretty.

Set Warnings "-register-all".

Local Open Scope string_scope.
Local Open Scope Z_scope.

(** ** JavaScript values the plugin relies on *)

(** Exceptions.  [TypeError] is what the runtime raises by itself (spreading
    [undefined] into an array); [LibraryError] stands for whatever a library
    call throws or rejects with. *)
Inductive JsError :=
  | TypeError (message : string)
  | LibraryError (message : string).

(** The outcome of a call: a value, or an exception that propagates (a
    rejected promise for the one asynchronous method). *)
Inductive Result (A : Type) :=
  | Ok (a : A)
  | Throw (e : JsError).
Arguments Ok {A} a.
Arguments Throw {A} e.

#[global] Instance Result_ret : MRet Result := fun A a => Ok a.
#[global] Instance Result_bind : MBind Result := fun A B f m =>
  match m with
  | Ok a => f a
  | Throw e => Throw e
  end.

(** [String.prototype.endsWith]. *)
Definition endsWith (s searchString : string) : bool :=
  bool_decide (list_ascii_of_string searchString `suffix_of` list_ascii_of_string s).

(** [Math.min(Math.max(n, 0), len)], the clamping step of [substring]. *)
Definition clamp (len : nat) (n : Z) : nat :=
  Z.to_nat (Z.min (Z.max n 0) (Z.of_nat len)).

(** [String.prototype.substring(start, end)]: both indices are clamped to
    [0 .. length], swapped when [start > end], and the characters from the
    smaller up to (not including) the larger are returned. *)
Definition substring (s : string) (start end_ : Z) : string :=
  let len := String.length s in
  let finalStart := clamp len start in
  let finalEnd := clamp len end_ in
  let from := Nat.min finalStart finalEnd in
  let to := Nat.max finalStart finalEnd in
  string_of_list_ascii (take (to - from) (drop from (list_ascii_of_string s))).

(** [value || 0] on an optional number. *)
Definition or_zero (value : option nat) : nat :=
  match value with
  | Some n => n
  | None => 0%nat
  end.

(** Truthiness of an optional string: [undefined] and [""] are falsy. *)
Definition truthy_string (value : option string) : bool :=
  match value with
  | Some s => negb (String.eqb s "")
  | None => false
  end.

(** [a || b] on optional strings. *)
Definition or_string (a b : option string) : option string :=
  if truthy_string a then a else b.

(** A parsed JSON value, as [ts.readConfigFile] hands it over. *)
Inductive Json :=
  | JNull
  | JBool (b : bool)
  | JNumber (n : Z)
  | JString (s : string)
  | JArray (items : list Json)
  | JObject (members : list (string * Json)).

Definition truthy_json (value : Json) : bool :=
  match value with
  | JNull => false
  | JBool b => b
  | JNumber n => negb (n =? 0)
  | JString s => negb (String.eqb s "")
  | JArray _ | JObject _ => true
  end.

(** A [Map<string, V>]: entries in insertion order, one per key. *)
Module JsMap.
Definition t (V : Type) := list (string * V).

Definition empty {V} : t V := [].

Fixpoint get {V} (m : t V) (key : string) : option V :=
  match m with
  | [] => None
  | (k, v) :: rest => if decide (k = key) then Some v else get rest key
  end.

(** [set] overwrites the value of a present key where it stands and
    appends an absent one. *)
Fixpoint set {V} (m : t V) (key : string) (value : V) : t V :=
  match m with
  | [] => [(key, value)]
  | (k, v) :: rest =>
      if decide (k = key) then (k, value) :: rest
      else (k, v) :: set rest key value
  end.

Definition keys {V} (m : t V) : list string := map fst m.
End JsMap.

(** [Array.from(new Set(items))]: the first occurrence of each item, in order. *)
Fixpoint unique_from (seen items : list string) : list string :=
  match items with
  | [] => []
  | x :: rest =>
      if decide (x ∈ seen) then unique_from seen rest
      else x :: unique_from (x :: seen) rest
  end.

Definition unique (items : list string) : list string := unique_from [] items.

(** ** Types of the TypeScript engine *)

Module ts.
Inductive ScriptKind :=
  | Unknown | JS | JSX | TS | TSX | External | JSON | Deferred.

Inductive DiagnosticCategory :=
  | Warning | Error | Suggestion | Message.

Inductive ScriptTarget :=
  | ES3 | ES5 | ES2015 | ES2016 | ES2017 | ES2018 | ESNext.
Definition Latest : ScriptTarget := ESNext.

Inductive ModuleKind :=
  | ModNone | CommonJS | AMD | UMD | System | ModES2015 | ModESNext.

Inductive ModuleResolutionKind :=
  | Classic | NodeJs.

(** The value of one compiler option. *)
Inductive OptionValue :=
  | Bool (b : bool)
  | Target (t : ScriptTarget)
  | Module_ (m : ModuleKind)
  | ModuleResolution (r : ModuleResolutionKind)
  | Other (raw : string).

(** [ts.CompilerOptions], an object from option names to values. *)
Abbreviation CompilerOptions := (gmap string OptionValue).

(** [string | DiagnosticMessageChain]. *)
Inductive MessageText :=
  | Text (s : string)
  | Chain (s : string) (next : list MessageText).

(** A span with optional fields: what [convertRange] accepts, both for
    diagnostics (fields may be undefined) and for text spans. *)
Record Span := {
  start : option nat;
  length : option nat;
}.

Record Diagnostic := {
  category : DiagnosticCategory;
  code : Z;
  span : Span;
  messageText : MessageText;
}.

Record SymbolDisplayPart := {
  text : string;
  kind : string;
}.

Record QuickInfo := {
  textSpan : Span;
  displayParts : list SymbolDisplayPart;
}.

Record ResolvedModule := {
  resolvedFileName : string;
  extension : string;
  isExternalLibraryImport : option bool;
}.

Record FileExtensionInfo := {
  fileExtension : string;
  isMixedContent : bool;
}.

Record ParsedCommandLine := {
  options : CompilerOptions;
  fileNames : list string;
}.
End ts.

#[global] Instance ScriptKind_eq_dec : EqDecision ts.ScriptKind.
Proof. solve_decision. Defined.

(** ** Types of the server's own API ([../api]) *)

Record Position := {
  line : nat;
  character : nat;
}.

Record Range := {
  range_start : Position;
  range_end : Position;
}.

(** [Range.create]. *)
Definition Range_create (start_ end_ : Position) : Range :=
  {| range_start := start_; range_end := end_ |}.

Inductive DiagnosticSeverity :=
  | SeverityError | SeverityWarning | SeverityInformation | SeverityHint.

Record Diagnostic := {
  range : Range;
  severity : DiagnosticSeverity;
  source : string;
  message : string;
}.

Record MarkedString := {
  language : string;
  value : string;
}.

Record Hover := {
  hover_range : Range;
  contents : MarkedString;
}.

Record TextEdit := {
  edit_range : Range;
  newText : string;
}.

(** [TextEdit.replace]. *)
Definition TextEdit_replace (r : Range) (text : string) : TextEdit :=
  {| edit_range := r; newText := text |}.

(** A [Document], through the methods the plugin calls.  [getFilePath] is
    the value the source reads as [document.getFilePath()!]; [version] is
    an integer; [attributes_type] is [document.getAttributes().type], absent
    when the tag has no [type]. *)
Record Document := {
  getFilePath : string;
  getText : string;
  getTextLength : nat;
  version : Z;
  attributes_type : option string;
  positionAt : nat -> Position;
  offsetAt : Position -> nat;
}.

(** ** Script kind and parser of a [type] attribute *)

Definition getScriptKindFromTypeAttribute (type : option string) : ts.ScriptKind :=
  match type with
  | Some "text/typescript" => ts.TS
  | _ => ts.JS
  end.

Inductive BuiltInParserName :=
  | typescript
  | babylon.

Definition getParserFromTypeAttribute (type : option string) : BuiltInParserName :=
  match type with
  | Some "text/typescript" => typescript
  | _ => babylon
  end.

(** [convertRange]. *)
Definition convertRange (document : Document) (r : ts.Span) : Range :=
  Range_create
    (positionAt document (or_zero (ts.start r)))
    (positionAt document (or_zero (ts.start r) + or_zero (ts.length r))%nat).

(** [isSvelte]. *)
Definition isSvelte (filePath : string) : bool :=
  endsWith filePath ".html" || endsWith filePath ".svelte".

(** ** Snapshots *)

(** A [DocumentSnapshot]: the version and script kind, and the text and
    length its closures captured. *)
Record DocumentSnapshot := {
  snapshot_version : Z;
  scriptKind : ts.ScriptKind;
  snapshot_text : string;
  snapshot_length : nat;
}.

Module DocumentSnapshot_.
Definition fromDocument (document : Document) : DocumentSnapshot :=
  let text := getText document in
  let length := getTextLength document in
  {| snapshot_version := version document;
     scriptKind := getScriptKindFromTypeAttribute (attributes_type document);
     snapshot_text := text;
     snapshot_length := length |}.

(** [getText: (start, end) => text.substring(start, end)]. *)
Definition getText (snapshot : DocumentSnapshot) (start end_ : Z) : string :=
  substring (snapshot_text snapshot) start end_.

(** [getLength: () => length]. *)
Definition getLength (snapshot : DocumentSnapshot) : nat :=
  snapshot_length snapshot.

(** [getChangeRange: () => undefined]. *)
Definition getChangeRange (snapshot : DocumentSnapshot) : option (nat * nat) :=
  None.
End DocumentSnapshot_.

(** ** The language service and its host state *)

(** Calls to [ts.createLanguageService] and to [dispose], newest first.  A
    language service is identified by the number of services created before
    it, which is how the model tells two service objects apart. *)
Inductive EngineEvent :=
  | Created (service : nat)
  | Disposed (service : nat).

(** The variables [getLanguageService] closes over. [files] is declared
    without an initializer, so it is [undefined] until assigned. *)
Record LanguageServiceState := {
  compilerOptions : ts.CompilerOptions;
  files : option (list string);
  documents : JsMap.t DocumentSnapshot;
  languageService : nat;
  events : list EngineEvent;
}.

(** What the host hands out for a file: a tracked snapshot, or
    [ts.ScriptSnapshot.fromString]. *)
Inductive IScriptSnapshot :=
  | OfDocument (snapshot : DocumentSnapshot)
  | OfString (text : string).

Inductive IndentType :=
  | space
  | tab.

(** The result of [detectIndent]. *)
Record Indent := {
  amount : nat;
  type : option IndentType;
}.

(** Options handed to [prettier.format]. *)
Abbreviation PrettierOptions := (gmap string Json).

(** The library functions the plugin calls. *)
Class Libraries := {
  ts_findConfigFile : string -> string -> option string;
  (** the [config] field of [ts.readConfigFile], [undefined] on failure *)
  ts_readConfigFile : string -> option Json;
  ts_parseJsonConfigFileContent :
    Json -> string -> ts.CompilerOptions -> option string ->
    list ts.FileExtensionInfo -> ts.ParsedCommandLine;
  ts_sys_readFile : string -> option string;
  (** the [resolvedModule] field of [ts.resolveModuleName] *)
  ts_resolveModuleName :
    string -> string -> ts.CompilerOptions -> option ts.ResolvedModule;
  ts_flattenDiagnosticMessageText : ts.MessageText -> string -> string;
  ts_displayPartsToString : list ts.SymbolDisplayPart -> string;
  (** queries of a language service; it reads the host state through the
      host's callbacks *)
  getSyntacticDiagnostics :
    LanguageServiceState -> nat -> string -> Result (list ts.Diagnostic);
  getSemanticDiagnostics :
    LanguageServiceState -> nat -> string -> Result (list ts.Diagnostic);
  getQuickInfoAtPosition :
    LanguageServiceState -> nat -> string -> nat -> Result (option ts.QuickInfo);
  path_resolve : string -> string -> string;
  path_dirname : string -> string;
  path_extname : string -> string;
  prettier_resolveConfig : string -> Result (option PrettierOptions);
  prettier_format : string -> PrettierOptions -> Result string;
  detectIndent : string -> Indent;
  indentString : string -> nat -> string -> string;
}.

(** The number of services created so far. *)
Fixpoint created (log : list EngineEvent) : nat :=
  match log with
  | [] => 0%nat
  | Created _ :: older => S (created older)
  | Disposed _ :: older => created older
  end.

(** The services that are created and not yet disposed after [log]. *)
Fixpoint live (log : list EngineEvent) : list nat :=
  match log with
  | [] => []
  | Created service :: older => service :: live older
  | Disposed service :: older => filter (fun s => s <> service) (live older)
  end.

(** [ts.createLanguageService(host)]: a new service object. *)
Definition createLanguageService (log : list EngineEvent) : nat * list EngineEvent :=
  let service := created log in
  (service, Created service :: log).

(** [languageService.dispose()]. *)
Definition dispose (service : nat) (log : list EngineEvent) : list EngineEvent :=
  Disposed service :: log.

Definition newline : string := String "010"%char EmptyString.
Definition tab_character : string := String "009"%char EmptyString.

Definition workspacePath : string := "/Users/jamesb/projects/Aircast/frontend".

Definition defaultCompilerOptions : ts.CompilerOptions :=
  <["allowNonTsExtensions" := ts.Bool true]>
  (<["target" := ts.Target ts.Latest]>
  (<["module" := ts.Module_ ts.ModESNext]>
  (<["moduleResolution" := ts.ModuleResolution ts.NodeJs]>
  (<["allowJs" := ts.Bool true]> ∅)))).

Definition extraFileExtensions : list ts.FileExtensionInfo :=
  [ {| ts.fileExtension := "html"; ts.isMixedContent := true |};
    {| ts.fileExtension := "svelte"; ts.isMixedContent := true |} ].

Section Plugin.
Context `{Libraries}.

(** [getLanguageService], up to the creation of the first service: the
    state its closures share. *)
Definition getLanguageService : LanguageServiceState :=
  let compilerOptions := defaultCompilerOptions in
  let configFilename :=
    or_string (ts_findConfigFile workspacePath "tsconfig.json")
              (ts_findConfigFile workspacePath "jsconfig.json") in
  let configJson :=
    if truthy_string configFilename
    then configFilename ≫= ts_readConfigFile
    else None in
  let '(files, compilerOptions) :=
    match configJson with
    | Some json =>
        if truthy_json json then
          let parsedConfig :=
            ts_parseJsonConfigFileContent json workspacePath compilerOptions
              configFilename extraFileExtensions in
          (Some (ts.fileNames parsedConfig),
           ts.options parsedConfig ∪ compilerOptions)
        else (None, compilerOptions)
    | None => (None, compilerOptions)
    end in
  let '(languageService, log) := createLanguageService [] in
  {| compilerOptions := compilerOptions;
     files := files;
     documents := JsMap.empty;
     languageService := languageService;
     events := log |}.

(** *** The host's callbacks *)

Definition getCompilationSettings (st : LanguageServiceState) : ts.CompilerOptions :=
  compilerOptions st.

(** [Array.from(new Set([...files, ...Array.from(documents.keys())]))]:
    spreading [files] while it is [undefined] throws. *)
Definition getScriptFileNames (st : LanguageServiceState) : Result (list string) :=
  match files st with
  | None => Throw (TypeError "files is not iterable")
  | Some files => Ok (unique (files ++ JsMap.keys (documents st))%list)
  end.

Definition getScriptVersion (st : LanguageServiceState) (fileName : string) : string :=
  match JsMap.get (documents st) fileName with
  | Some doc => pretty (snapshot_version doc)
  | None => "0"
  end.

Definition getScriptSnapshot (st : LanguageServiceState) (fileName : string)
    : IScriptSnapshot :=
  match JsMap.get (documents st) fileName with
  | Some doc => OfDocument doc
  | None =>
      OfString (if truthy_string (ts_sys_readFile fileName)
                then default "" (ts_sys_readFile fileName) else "")
  end.

Definition getCurrentDirectory (st : LanguageServiceState) : string :=
  "/Users/jamesb/projects/Aircast/frontend".

Definition resolveModuleNames (st : LanguageServiceState)
    (moduleNames : list string) (containingFile : string)
    : list (option ts.ResolvedModule) :=
  map (fun name =>
    let resolved :=
      ts_resolveModuleName name containingFile (compilerOptions st) in
    match resolved with
    | None =>
        if isSvelte name then
          Some {| ts.resolvedFileName :=
                    path_resolve (path_dirname containingFile) name;
                  ts.extension := path_extname name;
                  ts.isExternalLibraryImport := None |}
        else resolved
    | Some _ => resolved
    end) moduleNames.

(** *** updateDocument *)

(** The body of the [if] in [updateDocument]: dispose, then create. *)
Definition restart (st : LanguageServiceState) : LanguageServiceState :=
  let disposed := dispose (languageService st) (events st) in
  let '(service, log) := createLanguageService disposed in
  {| compilerOptions := compilerOptions st;
     files := files st;
     documents := documents st;
     languageService := service;
     events := log |}.

Definition updateDocument (st : LanguageServiceState) (document : Document)
    : LanguageServiceState * nat :=
  let preSnapshot := JsMap.get (documents st) (getFilePath document) in
  let newSnapshot := DocumentSnapshot_.fromDocument document in
  let st :=
    match preSnapshot with
    | Some preSnapshot =>
        if decide (scriptKind preSnapshot <> scriptKind newSnapshot)
        then restart st
        else st
    | None => st
    end in
  let st :=
    {| compilerOptions := compilerOptions st;
       files := files st;
       documents := JsMap.set (documents st) (getFilePath document) newSnapshot;
       languageService := languageService st;
       events := events st |} in
  (st, languageService st).

(** *** The plugin's methods; [st] is the plugin's [lang] field *)

Definition toDiagnostic (document : Document) (diagnostic : ts.Diagnostic) : Diagnostic :=
  {| range := convertRange document (ts.span diagnostic);
     severity := SeverityError;
     source :=
       if decide (getScriptKindFromTypeAttribute (attributes_type document) = ts.TS)
       then "ts" else "js";
     message :=
       ts_flattenDiagnosticMessageText (ts.messageText diagnostic) newline |}.

Definition getDiagnostics (st : LanguageServiceState) (document : Document)
    : LanguageServiceState * Result (list Diagnostic) :=
  let '(st, lang) := updateDocument st document in
  (st,
   syntaxDiagnostics ← getSyntacticDiagnostics st lang (getFilePath document);
   semanticDiagnostics ← getSemanticDiagnostics st lang (getFilePath document);
   mret (map (toDiagnostic document) (syntaxDiagnostics ++ semanticDiagnostics)%list)).

(** [None] in the result is the method's [null]. *)
Definition doHover (st : LanguageServiceState) (document : Document)
    (position : Position) : LanguageServiceState * Result (option Hover) :=
  let '(st, lang) := updateDocument st document in
  (st,
   info ← getQuickInfoAtPosition st lang (getFilePath document)
            (offsetAt document position);
   match info with
   | None => mret None
   | Some info =>
       let contents := ts_displayPartsToString (ts.displayParts info) in
       mret (Some {| hover_range := convertRange document (ts.textSpan info);
                     contents := {| language := "ts"; value := contents |} |})
   end).

Definition parserName (parser : BuiltInParserName) : string :=
  match parser with
  | typescript => "typescript"
  | babylon => "babylon"
  end.

(** The promise [formatDocument] returns, once settled. *)
Definition formatDocument (document : Document) : Result (list TextEdit) :=
  if decide (getTextLength document = 0%nat) then mret []
  else
    config ← prettier_resolveConfig (getFilePath document);
    formattedCode ←
      prettier_format (getText document)
        (<["parser" :=
             JString (parserName (getParserFromTypeAttribute (attributes_type document)))]>
           (default ∅ config));
    let indent := detectIndent (getText document) in
    mret [ TextEdit_replace
             (Range_create (positionAt document 0)
                           (positionAt document (getTextLength document)))
             (newline +:+
              indentString formattedCode (amount indent)
                (match type indent with
                 | Some tab => tab_character
                 | _ => " "
                 end)) ].

(** The states the plugin's [lang] can be in: the initial one, and any
    state left by a call to [updateDocument]. *)
Inductive reachable : LanguageServiceState -> Prop :=
  | reachable_init : reachable getLanguageService
  | reachable_update st document :
      reachable st -> reachable (updateDocument st document).1.

(** The state after updating with each document of a list in turn. *)
Definition updateAll (st : LanguageServiceState) (updates : list Document)
    : LanguageServiceState :=
  fold_left (fun st document => (updateDocument st document).1) updates st.

End Plugin.

(** ** Notions the properties are stated with *)

(** Every service in the log was numbered by [createLanguageService]. *)
Fixpoint numbered (log : list EngineEvent) : Prop :=
  match log with
  | [] => True
  | Created service :: older => service = created older /\ numbered older
  | Disposed _ :: older => numbered older
  end.

(** What holds of the log in every state: services are numbered in order
    of creation, the one live service is the current one, and at no past
    moment was more than one service live. *)
Definition log_invariant (st : LanguageServiceState) : Prop :=
  numbered (events st) /\
  live (events st) = [languageService st] /\
  forall past, past `suffix_of` events st -> (List.length (live past) <= 1)%nat.

(** [a] and [b] are the strings of two numbers, the first smaller. *)
Definition version_lt (a b : string) : Prop :=
  exists x y : Z, a = pretty x /\ b = pretty y /\ x < y.

(** What [getScriptVersion] reports for [fileName] after each update of a
    sequence applied in turn. *)
Fixpoint reportedVersions (st : LanguageServiceState) (fileName : string)
    (updates : list Document) : list string :=
  match updates with
  | [] => []
  | document :: later =>
      let st := (updateDocument st document).1 in
      getScriptVersion st fileName :: reportedVersions st fileName later
  end.

(** ** Sample worlds for closed examples *)

Definition sampleFile : string := "/Users/jamesb/projects/Aircast/frontend/src/App.svelte".

Definition syntaxError : ts.Diagnostic :=
  {| ts.category := ts.Error;
     ts.code := 1005;
     ts.span := {| ts.start := Some 20%nat; ts.length := Some 1%nat |};
     ts.messageText := ts.Text "';' expected." |}.

Definition unusedWarning : ts.Diagnostic :=
  {| ts.category := ts.Warning;
     ts.code := 6133;
     ts.span := {| ts.start := Some 5%nat; ts.length := Some 3%nat |};
     ts.messageText := ts.Text "'foo' is declared but its value is never read." |}.

Definition sampleQuickInfo : ts.QuickInfo :=
  {| ts.textSpan := {| ts.start := Some 4%nat; ts.length := Some 1%nat |};
     ts.displayParts := [ {| ts.text := "let x: number"; ts.kind := "text" |} ] |}.

(** A world with a [tsconfig.json] that lists one project file; the engine
    reports one syntactic and one semantic diagnostic for every file, and
    quick info everywhere but at offset 0. *)
Definition sampleLibraries : Libraries :=
  {| ts_findConfigFile := fun _ name =>
       if String.eqb name "tsconfig.json"
       then Some "/Users/jamesb/projects/Aircast/frontend/tsconfig.json"
       else None;
     ts_readConfigFile := fun _ => Some (JObject []);
     ts_parseJsonConfigFileContent := fun _ _ _ _ _ =>
       {| ts.options := <["strict" := ts.Bool true]> ∅;
          ts.fileNames := ["/Users/jamesb/projects/Aircast/frontend/src/main.ts"] |};
     ts_sys_readFile := fun _ => None;
     ts_resolveModuleName := fun name _ _ =>
       if String.eqb name "./main"
       then Some {| ts.resolvedFileName :=
                      "/Users/jamesb/projects/Aircast/frontend/src/main.ts";
                    ts.extension := ".ts";
                    ts.isExternalLibraryImport := Some false |}
       else None;
     ts_flattenDiagnosticMessageText := fun text _ =>
       match text with
       | ts.Text s => s
       | ts.Chain s _ => s
       end;
     ts_displayPartsToString := fun parts =>
       foldr (fun part rest => ts.text part +:+ rest) "" parts;
     getSyntacticDiagnostics := fun _ _ _ => Ok [syntaxError];
     getSemanticDiagnostics := fun _ _ _ => Ok [unusedWarning];
     getQuickInfoAtPosition := fun _ _ _ offset =>
       Ok (if Nat.eqb offset 0 then None else Some sampleQuickInfo);
     path_resolve := fun directory name => directory +:+ "/" +:+ name;
     path_dirname := fun _ => "/Users/jamesb/projects/Aircast/frontend/src";
     path_extname := fun name => if endsWith name ".svelte" then ".svelte" else ".html";
     prettier_resolveConfig := fun _ => Ok None;
     prettier_format := fun code _ => Ok code;
     detectIndent := fun _ => {| amount := 4%nat; type := Some space |};
     indentString := fun code _ _ => code |}.

(** The same world without any configuration file. *)
Definition noConfigLibraries : Libraries :=
  {| ts_findConfigFile := fun _ _ => None;
     ts_readConfigFile := fun _ => None;
     ts_parseJsonConfigFileContent := @ts_parseJsonConfigFileContent sampleLibraries;
     ts_sys_readFile := fun _ => None;
     ts_resolveModuleName := @ts_resolveModuleName sampleLibraries;
     ts_flattenDiagnosticMessageText :=
       @ts_flattenDiagnosticMessageText sampleLibraries;
     ts_displayPartsToString := @ts_displayPartsToString sampleLibraries;
     getSyntacticDiagnostics := fun _ _ _ => Ok [];
     getSemanticDiagnostics := fun _ _ _ => Ok [];
     getQuickInfoAtPosition := fun _ _ _ _ => Ok None;
     path_resolve := @path_resolve sampleLibraries;
     path_dirname := @path_dirname sampleLibraries;
     path_extname := @path_extname sampleLibraries;
     prettier_resolveConfig := fun _ => Ok None;
     prettier_format := fun code _ => Ok code;
     detectIndent := fun _ => {| amount := 0%nat; type := None |};
     indentString := fun code _ _ => code |}.

(** A world where things fail: [tsconfig.json] is found but reading it
    yields no [config] although a readable [jsconfig.json] exists, the
    engine throws on every query, and prettier rejects every text. *)
Definition brokenLibraries : Libraries :=
  {| ts_findConfigFile := fun _ name =>
       Some ("/Users/jamesb/projects/Aircast/frontend/" +:+ name);
     ts_readConfigFile := fun name =>
       if endsWith name "jsconfig.json" then Some (JObject []) else None;
     ts_parseJsonConfigFileContent := @ts_parseJsonConfigFileContent sampleLibraries;
     ts_sys_readFile := fun _ => None;
     ts_resolveModuleName := fun _ _ _ => None;
     ts_flattenDiagnosticMessageText :=
       @ts_flattenDiagnosticMessageText sampleLibraries;
     ts_displayPartsToString := @ts_displayPartsToString sampleLibraries;
     getSyntacticDiagnostics := fun _ _ _ => Throw (LibraryError "Debug Failure.");
     getSemanticDiagnostics := fun _ _ _ => Throw (LibraryError "Debug Failure.");
     getQuickInfoAtPosition := fun _ _ _ _ => Throw (LibraryError "Debug Failure.");
     path_resolve := @path_resolve sampleLibraries;
     path_dirname := @path_dirname sampleLibraries;
     path_extname := @path_extname sampleLibraries;
     prettier_resolveConfig := fun _ => Ok None;
     prettier_format := fun _ _ => Throw (LibraryError "SyntaxError: Unexpected token");
     detectIndent := fun _ => {| amount := 0%nat; type := None |};
     indentString := fun code _ _ => code |}.

(** A second file of the sample project. *)
Definition otherFile : string := "/Users/jamesb/projects/Aircast/frontend/src/Other.svelte".

(** A one-line document; positions are offsets on line 0. *)
Definition sampleDocument (text : string) (version : Z) (type : option string) : Document :=
  {| getFilePath := sampleFile;
     getText := text;
     getTextLength := String.length text;
     version := version;
     attributes_type := type;
     positionAt := fun offset => {| line := 0; character := offset |};
     offsetAt := fun position => character position |}.

Definition untypedDocument : Document :=
  sampleDocument "let x = 1" 1 None.

Definition typedDocument : Document :=
  sampleDocument "let x: number = 1" 2 (Some "text/typescript").

Definition emptyDocument : Document :=
  sampleDocument "" 3 None.

(** A document whose script does not parse. *)
Definition malformedDocument : Document :=
  sampleDocument "let x = ;" 4 None.

(** The sample world's state after one update with the untyped document. *)
Definition sampleState : LanguageServiceState :=
  (updateDocument (@getLanguageService sampleLibraries) untypedDocument).1.

(** ** The script kind of a file name *)

(** [String.prototype.lastIndexOf] for a one-character search string: the
    index of the last occurrence, [-1] when there is none.  [index] is the
    index of the first character of [s] and [found] the last occurrence
    before it. *)
Fixpoint lastIndexOf_from (s : string) (c : ascii) (index found : Z) : Z :=
  match s with
  | EmptyString => found
  | String x rest =>
      lastIndexOf_from rest c (index + 1) (if Ascii.eqb x c then index else found)
  end.

Definition lastIndexOf (s : string) (c : ascii) : Z :=
  lastIndexOf_from s c 0 (-1).

(** [String.prototype.substr(start)] without a length: a negative [start]
    counts from the end and stops at the beginning, a [start] past the end
    gives the empty string. *)
Definition substr (s : string) (start : Z) : string :=
  let len := Z.of_nat (String.length s) in
  let from := if start <? 0 then Z.max (len + start) 0 else Z.min start len in
  string_of_list_ascii (drop (Z.to_nat from) (list_ascii_of_string s)).

(** [toLowerCase] on one character: the letters [A] to [Z] move to [a] to
    [z], every other character stays. *)
Definition toLowerCase_char (c : ascii) : ascii :=
  let n := nat_of_ascii c in
  if (65 <=? n)%nat && (n <=? 90)%nat then ascii_of_nat (n + 32) else c.

(** [String.prototype.toLowerCase]. *)
Fixpoint toLowerCase (s : string) : string :=
  match s with
  | EmptyString => EmptyString
  | String c rest => String (toLowerCase_char c) (toLowerCase rest)
  end.

(** [getScriptKindFromFileName]; the cases are [ts.Extension.Js], [Jsx],
    [Ts], [Tsx] and [Json]. *)
Definition getScriptKindFromFileName (fileName : string) : ts.ScriptKind :=
  let ext := substr fileName (lastIndexOf fileName ".") in
  match toLowerCase ext with
  | ".js" => ts.JS
  | ".jsx" => ts.JSX
  | ".ts" => ts.TS
  | ".tsx" => ts.TSX
  | ".json" => ts.JSON
  | _ => ts.Unknown
  end.

(** ** Further notions the properties are stated with *)

(** The number of updates in a sequence whose script kind differs from the
    kind recorded just before; [previous] is the kind recorded before the
    first one, if any. *)
Fixpoint kindChanges (previous : option ts.ScriptKind) (updates : list Document) : nat :=
  match updates with
  | [] => 0%nat
  | document :: later =>
      let kind := getScriptKindFromTypeAttribute (attributes_type document) in
      ((match previous with
        | Some before => if decide (before <> kind) then 1 else 0
        | None => 0
        end) + kindChanges (Some kind) later)%nat
  end.

(** The log accounts for every service: the current one is the newest,
    every older one has been disposed, and none newer has been. *)
Definition services_accounted (st : LanguageServiceState) : Prop :=
  created (events st) = S (languageService st) /\
  forall service,
    Disposed service ∈ events st <-> (service < languageService st)%nat.

(** ** Lemmas on the JavaScript primitives *)

Lemma list_ascii_of_string_app (a b : string) :
  list_ascii_of_string (a +:+ b) = (list_ascii_of_string a ++ list_ascii_of_string b)%list.
Proof. induction a as [|c a IH]; simpl; [reflexivity | now rewrite IH]. Qed.

Lemma string_of_list_ascii_app (k l : list ascii) :
  string_of_list_ascii (k ++ l)%list = string_of_list_ascii k +:+ string_of_list_ascii l.
Proof. induction k as [|c k IH]; simpl; [reflexivity | now rewrite IH]. Qed.

Lemma length_list_ascii_of_string (s : string) :
  List.length (list_ascii_of_string s) = String.length s.
Proof. induction s as [|c s IH]; simpl; [reflexivity | now rewrite IH]. Qed.

Lemma length_string_of_list_ascii (l : list ascii) :
  String.length (string_of_list_ascii l) = List.length l.
Proof. induction l as [|c l IH]; simpl; [reflexivity | now rewrite IH]. Qed.

(** [endsWith] holds exactly of the strings that are some prefix followed by
    the search string. *)
Lemma endsWith_spec (s searchString : string) :
  endsWith s searchString = true <-> exists p, s = p +:+ searchString.
Proof.
  unfold endsWith. rewrite bool_decide_eq_true. split.
  - intros [k Hk]. exists (string_of_list_ascii k).
    rewrite <- (string_of_list_ascii_of_string s), Hk, string_of_list_ascii_app.
    now rewrite string_of_list_ascii_of_string.
  - intros [p ->]. exists (list_ascii_of_string p).
    apply list_ascii_of_string_app.
Qed.

Lemma isSvelte_spec (filePath : string) :
  isSvelte filePath = true <->
  (exists p, filePath = p +:+ ".html") \/ (exists p, filePath = p +:+ ".svelte").
Proof.
  unfold isSvelte. rewrite orb_true_iff, !endsWith_spec. reflexivity.
Qed.

Lemma clamp_le (len : nat) (n : Z) : (clamp len n <= len)%nat.
Proof. unfold clamp. lia. Qed.

Lemma clamp_in_range (len : nat) (n : Z) :
  0 <= n <= Z.of_nat len -> clamp len n = Z.to_nat n.
Proof. unfold clamp. intros. f_equal. lia. Qed.

Lemma clamp_idem (len : nat) (n : Z) :
  clamp len (Z.of_nat (clamp len n)) = clamp len n.
Proof. unfold clamp. lia. Qed.

(** The result of [substring] sits in the string between the two clamped
    indices. *)
Lemma substring_decompose (s : string) (start end_ : Z) :
  let lo := Nat.min (clamp (String.length s) start) (clamp (String.length s) end_) in
  let hi := Nat.max (clamp (String.length s) start) (clamp (String.length s) end_) in
  exists before after,
    s = before +:+ substring s start end_ +:+ after /\
    String.length before = lo /\
    String.length (substring s start end_) = (hi - lo)%nat.
Proof.
  intros lo hi.
  pose proof (clamp_le (String.length s) start) as Hs.
  pose proof (clamp_le (String.length s) end_) as He.
  set (l := list_ascii_of_string s).
  exists (string_of_list_ascii (take lo l)),
         (string_of_list_ascii (drop (hi - lo) (drop lo l))).
  assert (Hl : List.length l = String.length s) by apply length_list_ascii_of_string.
  unfold substring. fold lo hi l. split; [|split].
  - rewrite <- !string_of_list_ascii_app, !take_drop.
    symmetry. apply string_of_list_ascii_of_string.
  - rewrite length_string_of_list_ascii, length_take. lia.
  - rewrite length_string_of_list_ascii, length_take, length_drop. lia.
Qed.

Lemma substring_swap (s : string) (start end_ : Z) :
  substring s start end_ = substring s end_ start.
Proof. unfold substring. now rewrite Nat.min_comm, Nat.max_comm. Qed.

Lemma substring_clamped (s : string) (start end_ : Z) :
  substring s start end_ =
  substring s (Z.of_nat (clamp (String.length s) start))
              (Z.of_nat (clamp (String.length s) end_)).
Proof. unfold substring. now rewrite !clamp_idem. Qed.

(** ** Lemmas on the document table *)

Lemma JsMap_get_set_eq {V} (m : JsMap.t V) (key : string) (value : V) :
  JsMap.get (JsMap.set m key value) key = Some value.
Proof.
  induction m as [|[k v] m IH]; simpl.
  - now rewrite decide_True.
  - destruct (decide (k = key)) as [->|Hne]; simpl.
    + now rewrite decide_True.
    + now rewrite decide_False.
Qed.

Lemma JsMap_get_set_ne {V} (m : JsMap.t V) (key other : string) (value : V) :
  key <> other -> JsMap.get (JsMap.set m key value) other = JsMap.get m other.
Proof.
  intros Hne. induction m as [|[k v] m IH]; simpl.
  - now rewrite decide_False.
  - destruct (decide (k = key)) as [->|Hk]; simpl.
    + now rewrite !decide_False.
    + destruct (decide (k = other)); [reflexivity | exact IH].
Qed.

(** ** Lemmas on the log of engine events *)

Lemma live_lt_created (log : list EngineEvent) (service : nat) :
  numbered log -> service ∈ live log -> (service < created log)%nat.
Proof.
  induction log as [|[s|s] older IH]; simpl.
  - intros _ Hin. inversion Hin.
  - intros [-> Hn] Hin. apply elem_of_cons in Hin as [->|Hin]; [lia|].
    specialize (IH Hn Hin). lia.
  - intros Hn Hin. apply list_elem_of_filter in Hin as [_ Hin]. auto.
Qed.

Lemma suffix_cons_cases {A} (l k : list A) (x : A) :
  l `suffix_of` x :: k -> l = x :: k \/ l `suffix_of` k.
Proof.
  intros [[|y before] Hbefore]; simpl in Hbefore.
  - left. now symmetry.
  - right. injection Hbefore as _ ->. now exists before.
Qed.

Lemma restart_fresh (st : LanguageServiceState) :
  log_invariant st -> languageService (restart st) <> languageService st.
Proof.
  intros (Hn & Hlive & _). unfold restart. simpl.
  assert (languageService st < created (events st))%nat; [|lia].
  apply live_lt_created; [exact Hn|]. rewrite Hlive. apply list_elem_of_here.
Qed.

Lemma live_after_dispose (st : LanguageServiceState) :
  log_invariant st -> live (dispose (languageService st) (events st)) = [].
Proof.
  intros (_ & Hlive & _). unfold dispose. simpl. rewrite Hlive.
  rewrite filter_cons_False by (intros Hne; now apply Hne). reflexivity.
Qed.

Lemma restart_invariant (st : LanguageServiceState) :
  log_invariant st -> log_invariant (restart st).
Proof.
  intros Hinv. pose proof (live_after_dispose st Hinv) as Hdead.
  destruct Hinv as (Hn & Hlive & Hpast).
  unfold log_invariant, restart. simpl. split; [|split].
  - split; [reflexivity | exact Hn].
  - unfold dispose in Hdead. simpl in Hdead. now rewrite Hdead.
  - intros past Hsuffix.
    apply suffix_cons_cases in Hsuffix as [->|Hsuffix].
    { simpl. unfold dispose in Hdead. simpl in Hdead. rewrite Hdead. simpl. lia. }
    apply suffix_cons_cases in Hsuffix as [->|Hsuffix].
    { unfold dispose in Hdead. rewrite Hdead. simpl. lia. }
    now apply Hpast.
Qed.

Lemma updateDocument_returns_current (st : LanguageServiceState) (document : Document) :
  (updateDocument st document).2 = languageService (updateDocument st document).1.
Proof. reflexivity. Qed.

Lemma updateDocument_invariant (st : LanguageServiceState) (document : Document) :
  log_invariant st -> log_invariant (updateDocument st document).1.
Proof.
  intros Hinv. unfold updateDocument.
  destruct (JsMap.get (documents st) (getFilePath document)) as [pre|]; [|exact Hinv].
  destruct (decide _); [|exact Hinv].
  apply (restart_invariant st Hinv).
Qed.

Lemma updateDocument_documents (st : LanguageServiceState) (document : Document) :
  documents (updateDocument st document).1 =
  JsMap.set (documents st) (getFilePath document)
    (DocumentSnapshot_.fromDocument document).
Proof.
  unfold updateDocument.
  destruct (JsMap.get (documents st) (getFilePath document)) as [pre|]; [|reflexivity].
  destruct (decide _); reflexivity.
Qed.

Lemma updateDocument_config (st : LanguageServiceState) (document : Document) :
  files (updateDocument st document).1 = files st /\
  compilerOptions (updateDocument st document).1 = compilerOptions st.
Proof.
  unfold updateDocument.
  destruct (JsMap.get (documents st) (getFilePath document)) as [pre|]; [|split; reflexivity].
  destruct (decide _); split; reflexivity.
Qed.

(** One step of the [Result] monad. *)
Ltac step_bind := cbn [mbind mret Result_bind Result_ret].

Section Properties.
Context `{Libraries}.

Lemma getLanguageService_invariant : log_invariant getLanguageService.
Proof.
  unfold log_invariant, getLanguageService.
  destruct (match _ with Some _ => _ | None => _ end) as [fs opts].
  simpl. split; [auto|split; [reflexivity|]].
  intros past Hsuffix.
  apply suffix_cons_cases in Hsuffix as [->|Hsuffix]; [simpl; lia|].
  apply suffix_nil_inv in Hsuffix as ->. simpl. lia.
Qed.

Lemma getLanguageService_documents : documents getLanguageService = JsMap.empty.
Proof.
  unfold getLanguageService.
  destruct (match _ with Some _ => _ | None => _ end) as [fs opts]. reflexivity.
Qed.

Lemma reachable_invariant (st : LanguageServiceState) :
  reachable st -> log_invariant st.
Proof.
  induction 1 as [|st document _ IH].
  - apply getLanguageService_invariant.
  - now apply updateDocument_invariant.
Qed.

(** C1: in every state the plugin can reach, [updateDocument] returns the
    language service it leaves in place.  When the file was tracked with a
    snapshot of another script kind, the old service is disposed and only
    then a new one is created: the returned service differs from the one
    before, no service is live between the two calls, and the new one is
    the only live service afterwards.  When the file was not tracked, or
    was tracked with the same script kind, the service before the call is
    returned and no service is created or disposed.  At no moment of the
    whole history were two services live. *)
Theorem updateDocument_restarts_on_kind_change
    (st : LanguageServiceState) (document : Document) :
  reachable st ->
  let preSnapshot := JsMap.get (documents st) (getFilePath document) in
  let newKind := getScriptKindFromTypeAttribute (attributes_type document) in
  let st' := (updateDocument st document).1 in
  let lang := (updateDocument st document).2 in
  lang = languageService st' /\
  ((exists pre, preSnapshot = Some pre /\ scriptKind pre <> newKind) ->
     lang <> languageService st /\
     events st' = Created lang :: Disposed (languageService st) :: events st /\
     live (Disposed (languageService st) :: events st) = [] /\
     live (events st') = [lang]) /\
  ((preSnapshot = None \/ exists pre, preSnapshot = Some pre /\ scriptKind pre = newKind) ->
     lang = languageService st /\ events st' = events st) /\
  (forall past, past `suffix_of` events st' -> (List.length (live past) <= 1)%nat).
Proof.
  intros Hreach preSnapshot newKind st' lang.
  pose proof (reachable_invariant st Hreach) as Hinv.
  pose proof (updateDocument_invariant st document Hinv) as (_ & Hlive' & Hpast').
  split; [reflexivity|]. split; [|split; [|exact Hpast']].
  - intros (pre & Hpre & Hkind).
    assert (Hst' : events st' = events (restart st) /\
                   languageService st' = languageService (restart st)).
    { subst st' preSnapshot newKind. unfold updateDocument. rewrite Hpre.
      simpl. rewrite decide_True by exact Hkind. split; reflexivity. }
    destruct Hst' as [Hevents Hservice].
    assert (Hlang : lang = languageService (restart st)) by exact Hservice.
    split; [|split; [|split]].
    + rewrite Hlang. now apply restart_fresh.
    + rewrite Hevents, Hlang. reflexivity.
    + apply (live_after_dispose st Hinv).
    + fold st' in Hlive'. rewrite Hlive'. reflexivity.
  - intros Hsame. subst st' lang preSnapshot newKind. unfold updateDocument.
    destruct Hsame as [Hnone|(pre & Hpre & Hkind)].
    + rewrite Hnone. split; reflexivity.
    + rewrite Hpre. simpl. rewrite decide_False by (intros Hne; now apply Hne).
      split; reflexivity.
Qed.

(** C2: [resolveModuleNames] answers every requested name, in order.  A
    name the engine resolves keeps the engine's resolution.  A name the
    engine does not resolve and that ends in [.html] or [.svelte] gets a
    resolution made of the requested name resolved against the directory of
    the containing file (Node's [path.resolve] on [path.dirname]) and of the
    name's extension.  A name the engine does not resolve and that does not
    end so is left unresolved; nothing is thrown. *)
Theorem resolveModuleNames_falls_back_for_markup
    (st : LanguageServiceState) (moduleNames : list string)
    (containingFile : string) (i : nat) (name : string) :
  moduleNames !! i = Some name ->
  let native := ts_resolveModuleName name containingFile (compilerOptions st) in
  let markup := (exists p, name = p +:+ ".html") \/ (exists p, name = p +:+ ".svelte") in
  List.length (resolveModuleNames st moduleNames containingFile) = List.length moduleNames /\
  exists slot,
    resolveModuleNames st moduleNames containingFile !! i = Some slot /\
    (forall resolved, native = Some resolved -> slot = Some resolved) /\
    (native = None -> markup ->
       slot = Some {| ts.resolvedFileName :=
                        path_resolve (path_dirname containingFile) name;
                      ts.extension := path_extname name;
                      ts.isExternalLibraryImport := None |}) /\
    (native = None -> ~ markup -> slot = None).
Proof.
  intros Hname native markup. unfold resolveModuleNames.
  split; [apply length_map|].
  rewrite list_lookup_fmap, Hname. simpl. fold native.
  eexists. split; [reflexivity|].
  destruct native as [resolved|] eqn:Hnative.
  - split; [intros ? [= <-]; reflexivity|]. split; discriminate.
  - split; [discriminate|].
    destruct (isSvelte name) eqn:Hmarkup.
    + split; [reflexivity|]. intros _ Hnot. exfalso. apply Hnot.
      now apply isSvelte_spec.
    + split; [|reflexivity]. intros _ Hyes. apply isSvelte_spec in Hyes. congruence.
Qed.

Lemma getLanguageService_without_config :
  ts_findConfigFile workspacePath "tsconfig.json" = None ->
  ts_findConfigFile workspacePath "jsconfig.json" = None ->
  files getLanguageService = None /\
  compilerOptions getLanguageService = defaultCompilerOptions.
Proof.
  intros Hts Hjs. unfold getLanguageService. rewrite Hts, Hjs. simpl.
  split; reflexivity.
Qed.

(** C3: when neither [tsconfig.json] nor [jsconfig.json] is found, the
    language service is created with the default compiler options (latest
    target, Node module resolution, [allowJs]) and keeps them, yet in every
    state the plugin reaches [getScriptFileNames] throws a [TypeError]:
    [files] was never assigned. *)
Theorem getScriptFileNames_throws_without_config (st : LanguageServiceState) :
  ts_findConfigFile workspacePath "tsconfig.json" = None ->
  ts_findConfigFile workspacePath "jsconfig.json" = None ->
  reachable st ->
  getCompilationSettings st = defaultCompilerOptions /\
  defaultCompilerOptions !! "target" = Some (ts.Target ts.Latest) /\
  defaultCompilerOptions !! "moduleResolution" = Some (ts.ModuleResolution ts.NodeJs) /\
  defaultCompilerOptions !! "allowJs" = Some (ts.Bool true) /\
  getScriptFileNames st = Throw (TypeError "files is not iterable").
Proof.
  intros Hts Hjs Hreach.
  assert (Hst : files st = None /\ compilerOptions st = defaultCompilerOptions).
  { induction Hreach as [|st document _ IH].
    - now apply getLanguageService_without_config.
    - destruct (updateDocument_config st document) as [-> ->]. exact IH. }
  destruct Hst as [Hfiles Hoptions].
  split; [exact Hoptions|]. do 3 (split; [reflexivity|]).
  unfold getScriptFileNames. now rewrite Hfiles.
Qed.

Lemma getScriptVersion_after_update (st : LanguageServiceState) (document : Document) :
  getScriptVersion (updateDocument st document).1 (getFilePath document) =
  pretty (version document).
Proof.
  unfold getScriptVersion.
  now rewrite updateDocument_documents, JsMap_get_set_eq.
Qed.

Lemma getScriptVersion_other_update
    (st : LanguageServiceState) (document : Document) (fileName : string) :
  getFilePath document <> fileName ->
  getScriptVersion (updateDocument st document).1 fileName = getScriptVersion st fileName.
Proof.
  intros Hne. unfold getScriptVersion.
  now rewrite updateDocument_documents, JsMap_get_set_ne.
Qed.

Lemma getScriptVersion_unseen (history : list Document) (fileName : string) :
  Forall (fun document => getFilePath document <> fileName) history ->
  getScriptVersion (updateAll getLanguageService history) fileName = "0".
Proof.
  intros Hhistory.
  assert (Hinit : getScriptVersion getLanguageService fileName = "0").
  { unfold getScriptVersion. now rewrite getLanguageService_documents. }
  revert Hinit. generalize getLanguageService as st.
  induction Hhistory as [|document history Hne _ IH]; intros st Hst; [exact Hst|].
  change (updateAll st (document :: history))
    with (updateAll (updateDocument st document).1 history).
  apply IH. now rewrite getScriptVersion_other_update.
Qed.

Lemma reportedVersions_same_file
    (st : LanguageServiceState) (fileName : string) (updates : list Document) :
  Forall (fun document => getFilePath document = fileName) updates ->
  reportedVersions st fileName updates =
  map (fun document => pretty (version document)) updates.
Proof.
  intros Hupdates. revert st.
  induction Hupdates as [|document updates <- _ IH]; intros st; [reflexivity|].
  cbn [reportedVersions map]. now rewrite getScriptVersion_after_update, IH.
Qed.

(** C4 as amended: [getScriptVersion] returns ["0"] for a file no update
    has named; after an update it returns the string of the version of the
    document passed to that update; and over a sequence of updates of one
    file whose documents carry strictly increasing versions, the versions
    it reports after each update are strictly increasing. *)
Theorem getScriptVersion_follows_document_version (fileName : string) :
  (forall history,
     Forall (fun document => getFilePath document <> fileName) history ->
     getScriptVersion (updateAll getLanguageService history) fileName = "0") /\
  (forall st document,
     getFilePath document = fileName ->
     getScriptVersion (updateDocument st document).1 fileName =
     pretty (version document)) /\
  (forall st updates,
     Forall (fun document => getFilePath document = fileName) updates ->
     StronglySorted Z.lt (map version updates) ->
     StronglySorted version_lt (reportedVersions st fileName updates)).
Proof.
  split; [intros history; apply getScriptVersion_unseen|]. split.
  - intros st document <-. apply getScriptVersion_after_update.
  - intros st updates Hfile Hsorted.
    rewrite (reportedVersions_same_file st fileName updates Hfile).
    clear Hfile. induction updates as [|document updates IH]; simpl.
    + constructor.
    + simpl in Hsorted. inversion Hsorted as [|? ? Hrest Hfirst]; subst.
      constructor; [now apply IH|].
      rewrite Forall_map in Hfirst |- *.
      eapply Forall_impl; [exact Hfirst|].
      intros later Hlt. simpl in *. now exists (version document), (version later).
Qed.

(** C5 as amended: [formatDocument] resolves with no edit for a document of
    text length 0.  For any other document for which prettier resolves the
    configuration and formats the text, it resolves with exactly one edit:
    the replacement of the range from [positionAt(0)] to
    [positionAt(getTextLength())] by a newline followed by the formatted
    code passed through [indentString] with the detected amount and the
    detected character, a tab when the detected type is [tab] and a space
    otherwise. *)
Theorem formatDocument_single_replacement (document : Document) :
  (getTextLength document = 0%nat -> formatDocument document = Ok []) /\
  (getTextLength document <> 0%nat ->
   forall config formattedCode,
     prettier_resolveConfig (getFilePath document) = Ok config ->
     prettier_format (getText document)
       (<["parser" :=
            JString (parserName (getParserFromTypeAttribute (attributes_type document)))]>
          (default ∅ config)) = Ok formattedCode ->
     exists edit indentCharacter,
       formatDocument document = Ok [edit] /\
       edit_range edit =
         {| range_start := positionAt document 0;
            range_end := positionAt document (getTextLength document) |} /\
       newText edit =
         newline +:+
         indentString formattedCode (amount (detectIndent (getText document)))
           indentCharacter /\
       (type (detectIndent (getText document)) = Some tab ->
          indentCharacter = tab_character) /\
       (type (detectIndent (getText document)) <> Some tab ->
          indentCharacter = " ")).
Proof.
  unfold formatDocument. split.
  - intros Hempty. now rewrite decide_True.
  - intros Hlength config formattedCode Hconfig Hformat.
    rewrite decide_False by exact Hlength.
    rewrite Hconfig. step_bind. rewrite Hformat. step_bind.
    eexists _, _. split; [reflexivity|]. split; [reflexivity|].
    split; [reflexivity|].
    destruct (type (detectIndent (getText document))) as [[]|];
      split; intros; congruence.
Qed.

Lemma getDiagnostics_returns
    (st : LanguageServiceState) (document : Document)
    (syntaxDiagnostics semanticDiagnostics : list ts.Diagnostic) :
  let st' := (updateDocument st document).1 in
  getSyntacticDiagnostics st' (languageService st') (getFilePath document)
    = Ok syntaxDiagnostics ->
  getSemanticDiagnostics st' (languageService st') (getFilePath document)
    = Ok semanticDiagnostics ->
  (getDiagnostics st document).2 =
  Ok (map (toDiagnostic document) syntaxDiagnostics ++
      map (toDiagnostic document) semanticDiagnostics)%list.
Proof.
  intros st' Hsyntax Hsemantic. unfold getDiagnostics.
  rewrite (surjective_pairing (updateDocument st document)).
  rewrite updateDocument_returns_current. fold st'. cbn [snd].
  rewrite Hsyntax. step_bind. rewrite Hsemantic. step_bind.
  now rewrite map_app.
Qed.

Lemma getDiagnostics_returned
    (st : LanguageServiceState) (document : Document) (diagnostics : list Diagnostic) :
  let st' := (updateDocument st document).1 in
  (getDiagnostics st document).2 = Ok diagnostics ->
  exists syntaxDiagnostics semanticDiagnostics,
    getSyntacticDiagnostics st' (languageService st') (getFilePath document)
      = Ok syntaxDiagnostics /\
    getSemanticDiagnostics st' (languageService st') (getFilePath document)
      = Ok semanticDiagnostics /\
    diagnostics =
      (map (toDiagnostic document) syntaxDiagnostics ++
       map (toDiagnostic document) semanticDiagnostics)%list.
Proof.
  intros st'. unfold getDiagnostics.
  rewrite (surjective_pairing (updateDocument st document)).
  rewrite updateDocument_returns_current. fold st'. cbn [snd].
  destruct (getSyntacticDiagnostics _ _ _) as [syntaxDiagnostics|e]; step_bind;
    [|discriminate].
  destruct (getSemanticDiagnostics _ _ _) as [semanticDiagnostics|e]; step_bind;
    [|discriminate].
  intros [= <-]. exists syntaxDiagnostics, semanticDiagnostics.
  now rewrite map_app.
Qed.

(** C6: whenever the engine answers both queries, [getDiagnostics] returns
    the converted syntactic diagnostics followed by the converted semantic
    ones, each group in the engine's order; and every sequence it returns
    is of that form, so a syntactic diagnostic always stands before a
    semantic one, whatever their offsets. *)
Theorem getDiagnostics_syntactic_before_semantic
    (st : LanguageServiceState) (document : Document) (diagnostics : list Diagnostic) :
  let st' := (updateDocument st document).1 in
  (getDiagnostics st document).2 = Ok diagnostics ->
  exists syntaxDiagnostics semanticDiagnostics,
    getSyntacticDiagnostics st' (languageService st') (getFilePath document)
      = Ok syntaxDiagnostics /\
    getSemanticDiagnostics st' (languageService st') (getFilePath document)
      = Ok semanticDiagnostics /\
    diagnostics =
      (map (toDiagnostic document) syntaxDiagnostics ++
       map (toDiagnostic document) semanticDiagnostics)%list /\
    (forall i d, syntaxDiagnostics !! i = Some d ->
       diagnostics !! i = Some (toDiagnostic document d)) /\
    (forall j d, semanticDiagnostics !! j = Some d ->
       diagnostics !! (List.length syntaxDiagnostics + j)%nat =
       Some (toDiagnostic document d)).
Proof.
  intros st' Hreturned.
  destruct (getDiagnostics_returned st document diagnostics Hreturned)
    as (syntaxDiagnostics & semanticDiagnostics & Hsyntax & Hsemantic & ->).
  exists syntaxDiagnostics, semanticDiagnostics.
  split; [exact Hsyntax|]. split; [exact Hsemantic|]. split; [reflexivity|]. split.
  - intros i d Hi. rewrite lookup_app_l.
    + now rewrite list_lookup_fmap, Hi.
    + rewrite length_map. now apply lookup_lt_Some in Hi.
  - intros j d Hj.
    rewrite <- (length_map (toDiagnostic document) syntaxDiagnostics).
    rewrite lookup_app_r by lia.
    replace (_ + j - _)%nat with j by lia.
    now rewrite list_lookup_fmap, Hj.
Qed.

(** C7: when the engine reports no quick info at the offset of the
    position, [doHover] returns [null]; when it reports some, [doHover]
    returns a hover whose range is the converted text span and whose
    contents carry the language tag [ts] and the display parts as text. *)
Theorem doHover_null_without_info
    (st : LanguageServiceState) (document : Document) (position : Position)
    (info : option ts.QuickInfo) :
  let st' := (updateDocument st document).1 in
  getQuickInfoAtPosition st' (languageService st') (getFilePath document)
    (offsetAt document position) = Ok info ->
  (info = None -> (doHover st document position).2 = Ok None) /\
  (forall quickInfo, info = Some quickInfo ->
     exists hover,
       (doHover st document position).2 = Ok (Some hover) /\
       hover_range hover = convertRange document (ts.textSpan quickInfo) /\
       language (contents hover) = "ts" /\
       value (contents hover) = ts_displayPartsToString (ts.displayParts quickInfo)).
Proof.
  intros st' Hinfo.
  assert (Hhover : (doHover st document position).2 =
                   match info with
                   | None => Ok None
                   | Some quickInfo =>
                       Ok (Some {| hover_range :=
                                     convertRange document (ts.textSpan quickInfo);
                                   contents :=
                                     {| language := "ts";
                                        value := ts_displayPartsToString
                                                   (ts.displayParts quickInfo) |} |})
                   end).
  { unfold doHover. rewrite (surjective_pairing (updateDocument st document)).
    rewrite updateDocument_returns_current. fold st'. cbn [snd].
    rewrite Hinfo. step_bind. destruct info; reflexivity. }
  split.
  - intros ->. exact Hhover.
  - intros quickInfo ->. eexists. split; [exact Hhover|]. repeat split.
Qed.

(** The [switch] of [getScriptKindFromTypeAttribute] on a present attribute
    other than [text/typescript] takes the default branch. *)
Lemma getScriptKindFromTypeAttribute_default (type : string) :
  type <> "text/typescript" ->
  getScriptKindFromTypeAttribute (Some type) = ts.JS.
Proof.
  intros Hne. unfold getScriptKindFromTypeAttribute.
  do 15 (destruct type as [|[[] [] [] [] [] [] [] []] type]; try reflexivity).
  destruct type; [congruence | reflexivity].
Qed.

Lemma getScriptKindFromTypeAttribute_spec (type : option string) :
  getScriptKindFromTypeAttribute type =
  if decide (type = Some "text/typescript") then ts.TS else ts.JS.
Proof.
  destruct (decide (type = Some "text/typescript")) as [->|Hne]; [reflexivity|].
  destruct type as [type|]; [|reflexivity].
  apply getScriptKindFromTypeAttribute_default. congruence.
Qed.

(** C8: [getScriptKindFromTypeAttribute] is defined on every attribute
    value: [text/typescript] gives [TS], and every other string, as well as
    an absent attribute, gives [JS].  Accordingly every diagnostic that
    [getDiagnostics] returns has source [ts] when the document's [type]
    attribute is [text/typescript] and [js] otherwise. *)
Theorem source_follows_type_attribute
    (st : LanguageServiceState) (document : Document) (diagnostics : list Diagnostic) :
  (getDiagnostics st document).2 = Ok diagnostics ->
  (forall type : option string,
     (type = Some "text/typescript" -> getScriptKindFromTypeAttribute type = ts.TS) /\
     (type <> Some "text/typescript" -> getScriptKindFromTypeAttribute type = ts.JS)) /\
  (attributes_type document = Some "text/typescript" ->
     Forall (fun d => source d = "ts") diagnostics) /\
  (attributes_type document <> Some "text/typescript" ->
     Forall (fun d => source d = "js") diagnostics).
Proof.
  intros Hreturned.
  destruct (getDiagnostics_returned st document diagnostics Hreturned)
    as (syntaxDiagnostics & semanticDiagnostics & _ & _ & ->).
  split; [|split].
  - intros type. rewrite getScriptKindFromTypeAttribute_spec.
    split; intros Htype; [now rewrite decide_True | now rewrite decide_False].
  - intros Htype. rewrite <- map_app, Forall_map. apply Forall_forall.
    intros d _. unfold toDiagnostic. simpl.
    rewrite getScriptKindFromTypeAttribute_spec.
    destruct (decide (attributes_type document = _)); [reflexivity | contradiction].
  - intros Htype. rewrite <- map_app, Forall_map. apply Forall_forall.
    intros d _. unfold toDiagnostic. simpl.
    rewrite getScriptKindFromTypeAttribute_spec.
    destruct (decide (attributes_type document = _)); [contradiction | reflexivity].
Qed.

(** C9: [getText] of a snapshot is defined for all [start] and [end]:
    both are clamped to the bounds of the captured text, a reversed pair
    reads the same range, and the result is the part of the captured text
    between the two clamped indices.  A later update of the same file puts
    a new snapshot in the table; the earlier snapshot keeps answering from
    the text it captured. *)
Theorem snapshot_getText_clamped
    (st : LanguageServiceState) (document later : Document) (start end_ : Z) :
  getFilePath later = getFilePath document ->
  let snapshot := DocumentSnapshot_.fromDocument document in
  let result := DocumentSnapshot_.getText snapshot start end_ in
  let len := String.length (getText document) in
  let lo := Nat.min (clamp len start) (clamp len end_) in
  let hi := Nat.max (clamp len start) (clamp len end_) in
  (exists before after,
     getText document = before +:+ result +:+ after /\
     String.length before = lo /\
     String.length result = (hi - lo)%nat) /\
  (hi <= len)%nat /\
  result = DocumentSnapshot_.getText snapshot end_ start /\
  result = DocumentSnapshot_.getText snapshot
             (Z.of_nat (clamp len start)) (Z.of_nat (clamp len end_)) /\
  let st1 := (updateDocument st document).1 in
  let st2 := (updateDocument st1 later).1 in
  getScriptSnapshot st1 (getFilePath document) = OfDocument snapshot /\
  getScriptSnapshot st2 (getFilePath document) =
    OfDocument (DocumentSnapshot_.fromDocument later) /\
  DocumentSnapshot_.getText snapshot start end_ =
    substring (getText document) start end_.
Proof.
  intros Hpath snapshot result len lo hi.
  split; [apply substring_decompose|].
  split; [pose proof (clamp_le len start); pose proof (clamp_le len end_); lia|].
  split; [apply substring_swap|].
  split; [apply substring_clamped|].
  intros st1 st2. unfold getScriptSnapshot. split; [|split; [|reflexivity]].
  - subst st1. now rewrite updateDocument_documents, JsMap_get_set_eq.
  - subst st2. now rewrite updateDocument_documents, <- Hpath, JsMap_get_set_eq.
Qed.

(** C10: every diagnostic [getDiagnostics] returns has severity [Error],
    whatever category the engine gave the diagnostic it comes from. *)
Theorem getDiagnostics_severity_error
    (st : LanguageServiceState) (document : Document) (diagnostics : list Diagnostic) :
  (getDiagnostics st document).2 = Ok diagnostics ->
  Forall (fun d => severity d = SeverityError) diagnostics /\
  (forall engineDiagnostic category,
     ts.category engineDiagnostic = category ->
     severity (toDiagnostic document engineDiagnostic) = SeverityError).
Proof.
  intros Hreturned.
  destruct (getDiagnostics_returned st document diagnostics Hreturned)
    as (syntaxDiagnostics & semanticDiagnostics & _ & _ & ->).
  split; [|reflexivity].
  rewrite <- map_app, Forall_map. apply Forall_forall. reflexivity.
Qed.

End Properties.

(** ** Closed instances in the sample worlds *)

Lemma sampleState_reachable : @reachable sampleLibraries sampleState.
Proof. apply (@reachable_update sampleLibraries), reachable_init. Qed.

Lemma version_lt_irrefl (reported : string) : ~ version_lt reported reported.
Proof.
  intros (x & y & -> & Hy & Hlt). apply (inj pretty) in Hy. lia.
Qed.

(** Updating the tracked untyped document with the typed one replaces
    service 0 by service 1. *)
Lemma updateDocument_restarts_on_kind_change_witness :
  (updateDocument sampleState typedDocument).2 <> languageService sampleState /\
  events (updateDocument sampleState typedDocument).1 =
    [Created 1%nat; Disposed 0%nat; Created 0%nat] /\
  live (events (updateDocument sampleState typedDocument).1) = [1%nat].
Proof.
  destruct (@updateDocument_restarts_on_kind_change sampleLibraries
              sampleState typedDocument sampleState_reachable)
    as (_ & Hrestart & _).
  destruct Hrestart as (Hfresh & Hevents & _ & Hlive).
  - exists (DocumentSnapshot_.fromDocument untypedDocument).
    split; [reflexivity | vm_compute; discriminate].
  - split; [exact Hfresh|]. split; [exact Hevents | exact Hlive].
Defined.

(** The import of a Svelte file the engine does not know is resolved next
    to the importing file. *)
Lemma resolveModuleNames_falls_back_for_markup_witness :
  @resolveModuleNames sampleLibraries sampleState
    ["./main"; "./Foo.svelte"; "lodash"] sampleFile !! 1%nat =
  Some (Some {| ts.resolvedFileName :=
                  "/Users/jamesb/projects/Aircast/frontend/src/./Foo.svelte";
                ts.extension := ".svelte";
                ts.isExternalLibraryImport := None |}).
Proof.
  destruct (@resolveModuleNames_falls_back_for_markup sampleLibraries sampleState
              ["./main"; "./Foo.svelte"; "lodash"] sampleFile 1%nat "./Foo.svelte"
              eq_refl)
    as (_ & slot & Hslot & _ & Hmarkup & _).
  rewrite Hslot. f_equal. apply Hmarkup; [reflexivity|].
  right. exists "./Foo". reflexivity.
Defined.

(** Without a configuration file the first listing of script files throws. *)
Lemma getScriptFileNames_throws_without_config_witness :
  getCompilationSettings (@getLanguageService noConfigLibraries) = defaultCompilerOptions /\
  getScriptFileNames (@getLanguageService noConfigLibraries) =
    Throw (TypeError "files is not iterable").
Proof.
  destruct (@getScriptFileNames_throws_without_config noConfigLibraries
              (@getLanguageService noConfigLibraries) eq_refl eq_refl
              (@reachable_init noConfigLibraries))
    as (Hoptions & _ & _ & _ & Hthrows).
  split; [exact Hoptions | exact Hthrows].
Defined.

(** C4 as stated fails: two updates with the same document, as
    [getDiagnostics] followed by [doHover] make them, report version ["1"]
    twice, which is not an increase. *)
Lemma getScriptVersion_repeats_on_same_document :
  Forall (fun document => getFilePath document = sampleFile)
    [untypedDocument; untypedDocument] /\
  reportedVersions (@getLanguageService sampleLibraries) sampleFile
    [untypedDocument; untypedDocument] = ["1"; "1"] /\
  ~ StronglySorted version_lt
      (reportedVersions (@getLanguageService sampleLibraries) sampleFile
         [untypedDocument; untypedDocument]).
Proof.
  split; [repeat constructor|]. split; [reflexivity|].
  change (reportedVersions _ _ _) with ["1"; "1"].
  intros Hsorted. inversion Hsorted as [|? ? _ Hfirst]; subst.
  inversion Hfirst as [|? ? Hlt _]; subst.
  exact (version_lt_irrefl "1" Hlt).
Qed.

(** Versions 1 and 2 of the sample file are reported in increasing order. *)
Lemma getScriptVersion_follows_document_version_witness :
  getScriptVersion (@getLanguageService sampleLibraries) sampleFile = "0" /\
  StronglySorted version_lt
    (reportedVersions (@getLanguageService sampleLibraries) sampleFile
       [untypedDocument; typedDocument]).
Proof.
  destruct (@getScriptVersion_follows_document_version sampleLibraries sampleFile)
    as (Hunseen & _ & Hincreasing).
  split.
  - apply (Hunseen []). constructor.
  - apply Hincreasing.
    + repeat constructor.
    + simpl. repeat constructor.
Defined.

(** Formatting the typed sample document gives one edit over its 17
    characters. *)
Lemma formatDocument_single_replacement_witness :
  getTextLength typedDocument <> 0%nat /\
  exists edit,
    @formatDocument sampleLibraries typedDocument = Ok [edit] /\
    edit_range edit =
      {| range_start := {| line := 0; character := 0 |};
         range_end := {| line := 0; character := 17 |} |}.
Proof.
  assert (Hlength : getTextLength typedDocument <> 0%nat) by (simpl; lia).
  split; [exact Hlength|].
  destruct (proj2 (@formatDocument_single_replacement sampleLibraries typedDocument)
              Hlength None (getText typedDocument) eq_refl eq_refl)
    as (edit & indentCharacter & Hedit & Hrange & _).
  exists edit. split; [exact Hedit | exact Hrange].
Defined.

(** C5 as stated fails: nothing in [formatDocument] catches what prettier
    throws, so a non-empty document that prettier rejects gets a rejected
    promise and no edit at all. *)
Lemma formatDocument_rejects_malformed_document :
  getTextLength malformedDocument <> 0%nat /\
  @formatDocument brokenLibraries malformedDocument =
    Throw (LibraryError "SyntaxError: Unexpected token") /\
  ~ exists edit, @formatDocument brokenLibraries malformedDocument = Ok [edit].
Proof.
  split; [simpl; lia|]. split; [reflexivity|].
  intros [edit Hedit]. vm_compute in Hedit. discriminate.
Qed.

(** The syntax error at offset 20 comes before the semantic diagnostic at
    offset 5. *)
Lemma getDiagnostics_syntactic_before_semantic_witness :
  exists first second,
    (@getDiagnostics sampleLibraries sampleState typedDocument).2 = Ok [first; second] /\
    first = @toDiagnostic sampleLibraries typedDocument syntaxError /\
    second = @toDiagnostic sampleLibraries typedDocument unusedWarning.
Proof.
  destruct (@getDiagnostics_syntactic_before_semantic sampleLibraries sampleState
              typedDocument
              [@toDiagnostic sampleLibraries typedDocument syntaxError;
               @toDiagnostic sampleLibraries typedDocument unusedWarning]
              eq_refl)
    as (syntaxDiagnostics & semanticDiagnostics & _).
  eexists _, _. split; [reflexivity|]. split; reflexivity.
Defined.

(** No quick info at offset 0 of the sample document: the hover is [null]. *)
Lemma doHover_null_without_info_witness :
  (@doHover sampleLibraries sampleState typedDocument
     {| line := 0; character := 0 |}).2 = Ok None.
Proof.
  apply (@doHover_null_without_info sampleLibraries sampleState typedDocument
           {| line := 0; character := 0 |} None eq_refl).
  reflexivity.
Defined.

(** The diagnostics of the typed sample document are labelled [ts]. *)
Lemma source_follows_type_attribute_witness :
  Forall (fun d => source d = "ts")
    [@toDiagnostic sampleLibraries typedDocument syntaxError;
     @toDiagnostic sampleLibraries typedDocument unusedWarning].
Proof.
  apply (@source_follows_type_attribute sampleLibraries sampleState typedDocument
           _ eq_refl).
  reflexivity.
Defined.

(** Reading past the end and in reverse from the snapshot of the untyped
    sample document. *)
Lemma snapshot_getText_clamped_witness :
  DocumentSnapshot_.getText (DocumentSnapshot_.fromDocument untypedDocument) 100 4 =
  DocumentSnapshot_.getText (DocumentSnapshot_.fromDocument untypedDocument) 4 100.
Proof.
  apply (@snapshot_getText_clamped sampleLibraries
           (@getLanguageService sampleLibraries) untypedDocument typedDocument
           100 4 eq_refl).
Defined.

(** The engine's warning is reported with severity [Error]. *)
Lemma getDiagnostics_severity_error_witness :
  Forall (fun d => severity d = SeverityError)
    [@toDiagnostic sampleLibraries typedDocument syntaxError;
     @toDiagnostic sampleLibraries typedDocument unusedWarning].
Proof.
  apply (@getDiagnostics_severity_error sampleLibraries sampleState typedDocument
           _ eq_refl).
Defined.

(** ** Lemmas on file-name extensions *)

Lemma lastIndexOf_from_absent (s : string) (c : ascii) (index found : Z) :
  c ∉ list_ascii_of_string s -> lastIndexOf_from s c index found = found.
Proof.
  revert index found. induction s as [|x rest IH]; intros index found Habsent.
  - reflexivity.
  - simpl in *. apply not_elem_of_cons in Habsent as [Hne Hrest].
    rewrite IH by exact Hrest.
    destruct (Ascii.eqb_spec x c) as [->|_]; [congruence | reflexivity].
Qed.

Lemma lastIndexOf_from_last (before after : string) (c : ascii) (index found : Z) :
  c ∉ list_ascii_of_string after ->
  lastIndexOf_from (before +:+ String c after) c index found =
  index + Z.of_nat (String.length before).
Proof.
  intros Habsent. revert index found.
  induction before as [|x rest IH]; intros index found.
  - simpl. rewrite lastIndexOf_from_absent by exact Habsent.
    rewrite Ascii.eqb_refl. lia.
  - change (String x rest +:+ String c after)
      with (String x (rest +:+ String c after)).
    cbn [lastIndexOf_from String.length]. rewrite IH. lia.
Qed.

Lemma substr_at_length (before rest : string) :
  substr (before +:+ rest) (Z.of_nat (String.length before)) = rest.
Proof.
  unfold substr.
  assert (Hlen : String.length (before +:+ rest) =
                 (String.length before + String.length rest)%nat).
  { induction before as [|x before IH]; simpl; [reflexivity | now rewrite IH]. }
  rewrite Hlen.
  destruct (Z.ltb_spec (Z.of_nat (String.length before)) 0) as [Hneg|_]; [lia|].
  replace (Z.to_nat (Z.min _ _)) with (String.length before) by lia.
  rewrite list_ascii_of_string_app, <- length_list_ascii_of_string, drop_app_length.
  apply string_of_list_ascii_of_string.
Qed.

(** The text [getScriptKindFromFileName] switches on starts at the last dot. *)
Lemma extension_from_last_dot (before ext : string) :
  "."%char ∉ list_ascii_of_string ext ->
  substr (before +:+ String "." ext) (lastIndexOf (before +:+ String "." ext) ".") =
  String "." ext.
Proof.
  intros Habsent. unfold lastIndexOf.
  rewrite lastIndexOf_from_last by exact Habsent.
  rewrite Z.add_0_l. apply substr_at_length.
Qed.

Lemma substr_last_character (s : string) :
  (String.length (substr s (-1)) <= 1)%nat.
Proof.
  unfold substr. rewrite length_string_of_list_ascii, length_drop.
  rewrite length_list_ascii_of_string.
  change (-1 <? 0) with true. cbv iota zeta. lia.
Qed.

Lemma toLowerCase_char_dot (c : ascii) :
  toLowerCase_char c = "."%char -> c = "."%char.
Proof.
  destruct c as [[] [] [] [] [] [] [] []]; vm_compute; congruence.
Qed.

Lemma toLowerCase_keeps_dots (s : string) :
  "."%char ∉ list_ascii_of_string (toLowerCase s) ->
  "."%char ∉ list_ascii_of_string s.
Proof.
  induction s as [|c rest IH]; simpl; [auto|].
  rewrite !not_elem_of_cons. intros [Hne Hrest]. split; [|now apply IH].
  intros <-. now apply Hne.
Qed.

Lemma toLowerCase_length (s : string) :
  String.length (toLowerCase s) = String.length s.
Proof. induction s as [|c rest IH]; simpl; [reflexivity | now rewrite IH]. Qed.

Lemma elem_of_string_split (s : string) (c : ascii) :
  c ∈ list_ascii_of_string s -> exists before after, s = before +:+ String c after.
Proof.
  intros Hin. apply list_elem_of_split in Hin as (l1 & l2 & Hsplit).
  exists (string_of_list_ascii l1), (string_of_list_ascii l2).
  rewrite <- (string_of_list_ascii_of_string s), Hsplit.
  now rewrite string_of_list_ascii_app.
Qed.

(** X1: a file name made of anything, a dot, and an extension that reads
    [js], [jsx], [ts], [tsx] or [json] in any letter case has the script
    kind of that extension; only the text after the last dot counts. *)
Theorem getScriptKindFromFileName_of_extension (before ext : string) :
  (toLowerCase ext = "js" ->
     getScriptKindFromFileName (before +:+ "." +:+ ext) = ts.JS) /\
  (toLowerCase ext = "jsx" ->
     getScriptKindFromFileName (before +:+ "." +:+ ext) = ts.JSX) /\
  (toLowerCase ext = "ts" ->
     getScriptKindFromFileName (before +:+ "." +:+ ext) = ts.TS) /\
  (toLowerCase ext = "tsx" ->
     getScriptKindFromFileName (before +:+ "." +:+ ext) = ts.TSX) /\
  (toLowerCase ext = "json" ->
     getScriptKindFromFileName (before +:+ "." +:+ ext) = ts.JSON).
Proof.
  assert (Hswitch : forall lowered kind,
            "."%char ∉ list_ascii_of_string lowered ->
            match String "." lowered with
            | ".js" => ts.JS
            | ".jsx" => ts.JSX
            | ".ts" => ts.TS
            | ".tsx" => ts.TSX
            | ".json" => ts.JSON
            | _ => ts.Unknown
            end = kind ->
            toLowerCase ext = lowered ->
            getScriptKindFromFileName (before +:+ "." +:+ ext) = kind).
  { intros lowered kind Habsent Hkind Hext.
    unfold getScriptKindFromFileName.
    change (before +:+ "." +:+ ext) with (before +:+ String "." ext).
    rewrite extension_from_last_dot.
    - cbn [toLowerCase]. rewrite Hext. exact Hkind.
    - apply toLowerCase_keeps_dots. rewrite Hext. exact Habsent. }
  repeat split; apply Hswitch; try reflexivity;
    simpl; rewrite ?not_elem_of_cons; repeat split;
    try discriminate; apply not_elem_of_nil.
Qed.

(** X2: a file name without any dot, the empty name included, has script
    kind [Unknown]: [lastIndexOf] gives [-1], and [substr(-1)] keeps at
    most the last character. *)
Theorem getScriptKindFromFileName_without_dot (fileName : string) :
  (forall before after, fileName <> before +:+ "." +:+ after) ->
  lastIndexOf fileName "." = -1 /\
  getScriptKindFromFileName fileName = ts.Unknown.
Proof.
  intros Hnodot.
  assert (Habsent : "."%char ∉ list_ascii_of_string fileName).
  { intros Hin. apply elem_of_string_split in Hin as (before & after & Hsplit).
    exact (Hnodot before after Hsplit). }
  assert (Hindex : lastIndexOf fileName "." = -1).
  { unfold lastIndexOf. now apply lastIndexOf_from_absent. }
  split; [exact Hindex|].
  unfold getScriptKindFromFileName. rewrite Hindex.
  pose proof (substr_last_character fileName) as Hshort.
  rewrite <- toLowerCase_length in Hshort.
  destruct (toLowerCase (substr fileName (-1))) as [|c [|c' rest]].
  - reflexivity.
  - destruct c as [[] [] [] [] [] [] [] []]; reflexivity.
  - simpl in Hshort. lia.
Qed.

(** ** Further lemmas on the document table and on [unique] *)

Lemma JsMap_set_set {V} (m : JsMap.t V) (key : string) (first second : V) :
  JsMap.set (JsMap.set m key first) key second = JsMap.set m key second.
Proof.
  induction m as [|[k v] m IH]; simpl.
  - now rewrite decide_True.
  - destruct (decide (k = key)) as [->|Hne]; simpl.
    + now rewrite decide_True.
    + rewrite decide_False by exact Hne. now rewrite IH.
Qed.

Lemma JsMap_keys_get {V} (m : JsMap.t V) (key : string) :
  key ∈ JsMap.keys m <-> is_Some (JsMap.get m key).
Proof.
  unfold JsMap.keys. induction m as [|[k v] m IH]; simpl.
  - split; [intros Hin; inversion Hin | intros [v Hv]; discriminate].
  - rewrite elem_of_cons. destruct (decide (k = key)) as [->|Hne].
    + split; [eauto | now left].
    + rewrite <- IH. split; [intros [->|Hin]; [congruence | exact Hin] | now right].
Qed.

Lemma JsMap_keys_set_present {V} (m : JsMap.t V) (key : string) (value : V) :
  is_Some (JsMap.get m key) -> JsMap.keys (JsMap.set m key value) = JsMap.keys m.
Proof.
  unfold JsMap.keys. induction m as [|[k v] m IH]; simpl.
  - intros [x Hx]. discriminate.
  - destruct (decide (k = key)) as [->|Hne]; simpl; [reflexivity|].
    intros Hsome. now rewrite IH.
Qed.

Lemma JsMap_keys_set_absent {V} (m : JsMap.t V) (key : string) (value : V) :
  JsMap.get m key = None ->
  JsMap.keys (JsMap.set m key value) = (JsMap.keys m ++ [key])%list.
Proof.
  unfold JsMap.keys. induction m as [|[k v] m IH]; simpl.
  - reflexivity.
  - destruct (decide (k = key)) as [->|Hne]; simpl; [discriminate|].
    intros Hnone. now rewrite IH.
Qed.

Lemma unique_from_elem (seen items : list string) (x : string) :
  x ∈ unique_from seen items <-> x ∈ items /\ x ∉ seen.
Proof.
  revert seen. induction items as [|y rest IH]; intros seen; simpl.
  - split; [intros Hin; inversion Hin | intros [Hin _]; inversion Hin].
  - destruct (decide (y ∈ seen)) as [Hseen|Hfresh].
    + rewrite IH, elem_of_cons. split; [tauto|].
      intros [[->|Hin] Hnot]; [contradiction | tauto].
    + rewrite !elem_of_cons, IH, not_elem_of_cons. split.
      * intros [->|(Hin & Hne & Hnot)]; tauto.
      * intros [[->|Hin] Hnot]; [now left|].
        destruct (decide (x = y)) as [->|Hne]; [now left | right; tauto].
Qed.

Lemma unique_from_NoDup (seen items : list string) :
  NoDup (unique_from seen items).
Proof.
  revert seen. induction items as [|y rest IH]; intros seen; simpl.
  - constructor.
  - destruct (decide (y ∈ seen)); [apply IH|].
    constructor; [|apply IH].
    rewrite unique_from_elem, not_elem_of_cons. tauto.
Qed.

(** ** Further lemmas on the log of engine events *)

Lemma restart_accounted (st : LanguageServiceState) :
  services_accounted st ->
  services_accounted (restart st) /\
  languageService (restart st) = S (languageService st).
Proof.
  intros [Hcreated Hdisposed]. unfold services_accounted, restart, dispose.
  simpl. rewrite Hcreated. split; [split; [reflexivity|]|reflexivity].
  intros service. rewrite !elem_of_cons, Hdisposed. split.
  - intros [Heq|[Heq|Hlt]]; [discriminate | injection Heq as ->; lia | lia].
  - intros Hlt. right.
    destruct (decide (service = languageService st)) as [->|Hne];
      [now left | right; lia].
Qed.

(** The service [updateDocument] leaves: the next one when the file was
    tracked with another script kind, the same one otherwise. *)
Lemma updateDocument_service (st : LanguageServiceState) (document : Document) :
  services_accounted st ->
  services_accounted (updateDocument st document).1 /\
  languageService (updateDocument st document).1 =
    (languageService st +
     kindChanges (scriptKind <$> JsMap.get (documents st) (getFilePath document))
       [document])%nat.
Proof.
  intros Hacc. unfold updateDocument. cbn [kindChanges].
  destruct (JsMap.get (documents st) (getFilePath document)) as [pre|]; simpl.
  - destruct (decide (scriptKind pre <> _)) as [Hne|Heq].
    + destruct (restart_accounted st Hacc) as [Hacc' Hservice].
      split; [exact Hacc' | lia].
    + split; [exact Hacc | lia].
  - split; [exact Hacc | lia].
Qed.

(** ** Parser and script kind of a [type] attribute *)

Lemma getParserFromTypeAttribute_default (type : string) :
  type <> "text/typescript" ->
  getParserFromTypeAttribute (Some type) = babylon.
Proof.
  intros Hne. unfold getParserFromTypeAttribute.
  do 15 (destruct type as [|[[] [] [] [] [] [] [] []] type]; try reflexivity).
  destruct type; [congruence | reflexivity].
Qed.

(** X3: the parser chosen for formatting and the script kind used for
    diagnostics agree on every [type] attribute: the parser is [typescript]
    exactly when the kind is [TS], which is exactly for [text/typescript]. *)
Theorem parser_agrees_with_script_kind (type : option string) :
  (getParserFromTypeAttribute type = typescript <->
   getScriptKindFromTypeAttribute type = ts.TS) /\
  (getParserFromTypeAttribute type = typescript <-> type = Some "text/typescript") /\
  (getParserFromTypeAttribute type = babylon <->
   getScriptKindFromTypeAttribute type = ts.JS).
Proof.
  destruct (decide (type = Some "text/typescript")) as [->|Hne].
  - repeat split; intros; try reflexivity; discriminate.
  - assert (Hparser : getParserFromTypeAttribute type = babylon).
    { destruct type as [type|]; [|reflexivity].
      apply getParserFromTypeAttribute_default. congruence. }
    assert (Hkind : getScriptKindFromTypeAttribute type = ts.JS).
    { destruct type as [type|]; [|reflexivity].
      apply getScriptKindFromTypeAttribute_default. congruence. }
    rewrite Hparser, Hkind. repeat split; intros; try reflexivity;
      try discriminate; contradiction.
Qed.

(** X4: updating twice in a row with the same document is the same as
    updating once: the second call changes nothing in the state, creates
    and disposes no service, and returns the same service. *)
Theorem updateDocument_idempotent (st : LanguageServiceState) (document : Document) :
  updateDocument (updateDocument st document).1 document = updateDocument st document.
Proof.
  set (st1 := (updateDocument st document).1).
  assert (Hget : JsMap.get (documents st1) (getFilePath document) =
                 Some (DocumentSnapshot_.fromDocument document)).
  { subst st1. now rewrite updateDocument_documents, JsMap_get_set_eq. }
  assert (Hdocs : JsMap.set (documents st1) (getFilePath document)
                    (DocumentSnapshot_.fromDocument document) = documents st1).
  { subst st1. now rewrite updateDocument_documents, JsMap_set_set. }
  unfold updateDocument at 1. rewrite Hget. cbv zeta.
  rewrite decide_False by (intros Hne; now apply Hne).
  rewrite Hdocs. rewrite (surjective_pairing (updateDocument st document)).
  fold st1. rewrite updateDocument_returns_current. fold st1.
  destruct st1; reflexivity.
Qed.

(** X5: the table keeps its files in the order they were first seen: an
    update of a tracked file leaves the list of keys as it is, an update of
    a new file appends its path, and no update drops a file. *)
Theorem updateDocument_keeps_insertion_order
    (st : LanguageServiceState) (document : Document) :
  let keys := JsMap.keys (documents st) in
  let keys' := JsMap.keys (documents (updateDocument st document).1) in
  (getFilePath document ∈ keys -> keys' = keys) /\
  (getFilePath document ∉ keys -> keys' = (keys ++ [getFilePath document])%list) /\
  (forall fileName, fileName ∈ keys -> fileName ∈ keys').
Proof.
  intros keys keys'. subst keys keys'. rewrite updateDocument_documents.
  assert (Hpresent : getFilePath document ∈ JsMap.keys (documents st) ->
            JsMap.keys (JsMap.set (documents st) (getFilePath document)
                          (DocumentSnapshot_.fromDocument document)) =
            JsMap.keys (documents st)).
  { intros Hin. apply JsMap_keys_set_present. now apply JsMap_keys_get. }
  assert (Habsent : getFilePath document ∉ JsMap.keys (documents st) ->
            JsMap.keys (JsMap.set (documents st) (getFilePath document)
                          (DocumentSnapshot_.fromDocument document)) =
            (JsMap.keys (documents st) ++ [getFilePath document])%list).
  { intros Hnot. apply JsMap_keys_set_absent.
    destruct (JsMap.get (documents st) (getFilePath document)) eqn:Hget;
      [|reflexivity].
    exfalso. apply Hnot. apply JsMap_keys_get. rewrite Hget. eauto. }
  split; [exact Hpresent|]. split; [exact Habsent|].
  intros fileName Hin.
  destruct (decide (getFilePath document ∈ JsMap.keys (documents st))) as [Hyes|Hno].
  - now rewrite Hpresent.
  - rewrite Habsent by exact Hno. apply elem_of_app. now left.
Qed.

(** X6: once the project files are known, [getScriptFileNames] returns
    each project file and each tracked file exactly once, and nothing
    else. *)
Theorem getScriptFileNames_deduplicated_union
    (st : LanguageServiceState) (projectFiles : list string) :
  files st = Some projectFiles ->
  exists names,
    getScriptFileNames st = Ok names /\
    NoDup names /\
    forall fileName,
      fileName ∈ names <->
      fileName ∈ projectFiles \/ is_Some (JsMap.get (documents st) fileName).
Proof.
  intros Hfiles. unfold getScriptFileNames. rewrite Hfiles.
  eexists. split; [reflexivity|]. split; [apply unique_from_NoDup|].
  intros fileName. unfold unique.
  rewrite unique_from_elem, elem_of_app, JsMap_keys_get.
  split; [tauto|]. intros Hin. split; [exact Hin | apply not_elem_of_nil].
Qed.

Lemma reachable_accounted `{Libraries} (st : LanguageServiceState) :
  reachable st -> services_accounted st.
Proof.
  induction 1 as [|st document _ IH].
  - unfold services_accounted, getLanguageService.
    destruct (match _ with Some _ => _ | None => _ end) as [fs opts]. simpl.
    split; [reflexivity|]. intros service. rewrite elem_of_cons. split.
    + intros [Heq|Hin]; [discriminate | inversion Hin].
    + lia.
  - now apply updateDocument_service.
Qed.

(** X7: the log accounts for every language service the plugin created:
    the current service is the newest, every older one has been disposed,
    and the current one has not. *)
Theorem replaced_services_are_disposed `{Libraries} (st : LanguageServiceState) :
  reachable st ->
  created (events st) = S (languageService st) /\
  (forall service,
     Disposed service ∈ events st <-> (service < languageService st)%nat) /\
  Disposed (languageService st) ∉ events st.
Proof.
  intros Hreach. destruct (reachable_accounted st Hreach) as [Hcreated Hdisposed].
  split; [exact Hcreated|]. split; [exact Hdisposed|].
  rewrite Hdisposed. lia.
Qed.

(** X8: over a sequence of updates of one file, the language service is
    replaced once for each update whose script kind differs from the kind
    recorded just before it, and never otherwise. *)
Theorem restarts_count_kind_changes `{Libraries}
    (st : LanguageServiceState) (fileName : string) (updates : list Document) :
  reachable st ->
  Forall (fun document => getFilePath document = fileName) updates ->
  languageService (updateAll st updates) =
  (languageService st +
   kindChanges (scriptKind <$> JsMap.get (documents st) fileName) updates)%nat.
Proof.
  intros Hreach Hfile.
  pose proof (reachable_accounted st Hreach) as Hacc.
  clear Hreach. revert st Hacc.
  induction Hfile as [|document later <- _ IH]; intros st Hacc.
  - simpl. lia.
  - change (updateAll st (document :: later))
      with (updateAll (updateDocument st document).1 later).
    destruct (updateDocument_service st document Hacc) as [Hacc' Hservice].
    rewrite (IH _ Hacc'), Hservice.
    rewrite updateDocument_documents, JsMap_get_set_eq.
    change (scriptKind <$> Some (DocumentSnapshot_.fromDocument document))
      with (Some (getScriptKindFromTypeAttribute (attributes_type document))).
    cbn [kindChanges]. lia.
Qed.

(** X9: an update touches only the file of its document: for every other
    file the table entry, the reported version and the snapshot handed to
    the engine are what they were. *)
Theorem updateDocument_leaves_other_files `{Libraries}
    (st : LanguageServiceState) (document : Document) (fileName : string) :
  getFilePath document <> fileName ->
  let st' := (updateDocument st document).1 in
  JsMap.get (documents st') fileName = JsMap.get (documents st) fileName /\
  getScriptVersion st' fileName = getScriptVersion st fileName /\
  getScriptSnapshot st' fileName = getScriptSnapshot st fileName.
Proof.
  intros Hne st'.
  assert (Hget : JsMap.get (documents st') fileName = JsMap.get (documents st) fileName).
  { subst st'. now rewrite updateDocument_documents, JsMap_get_set_ne. }
  unfold getScriptVersion, getScriptSnapshot. now rewrite Hget.
Qed.

Lemma reachable_config `{Libraries} (st : LanguageServiceState) :
  reachable st ->
  files st = files getLanguageService /\
  compilerOptions st = compilerOptions getLanguageService.
Proof.
  induction 1 as [|st document _ IH].
  - split; reflexivity.
  - destruct (updateDocument_config st document) as [-> ->]. exact IH.
Qed.

(** X10: the project configuration is read once: in every state the plugin
    reaches, restarts included, the compiler settings and the project
    files are those of the initial state, and [resolveModuleNames] answers
    as it did initially. *)
Theorem configuration_is_fixed `{Libraries} (st : LanguageServiceState) :
  reachable st ->
  getCompilationSettings st = getCompilationSettings getLanguageService /\
  files st = files getLanguageService /\
  forall moduleNames containingFile,
    resolveModuleNames st moduleNames containingFile =
    resolveModuleNames getLanguageService moduleNames containingFile.
Proof.
  intros Hreach. destruct (reachable_config st Hreach) as [Hfiles Hoptions].
  split; [exact Hoptions|]. split; [exact Hfiles|].
  intros moduleNames containingFile. unfold resolveModuleNames.
  now rewrite Hoptions.
Qed.

Lemma getLanguageService_with_config `{Libraries} (configFilename : string) (json : Json) :
  or_string (ts_findConfigFile workspacePath "tsconfig.json")
            (ts_findConfigFile workspacePath "jsconfig.json") = Some configFilename ->
  configFilename <> "" ->
  ts_readConfigFile configFilename = Some json ->
  truthy_json json = true ->
  let parsedConfig :=
    ts_parseJsonConfigFileContent json workspacePath defaultCompilerOptions
      (Some configFilename) extraFileExtensions in
  files getLanguageService = Some (ts.fileNames parsedConfig) /\
  compilerOptions getLanguageService = ts.options parsedConfig ∪ defaultCompilerOptions.
Proof.
  intros Hname Hnonempty Hread Htruthy parsedConfig.
  unfold getLanguageService. rewrite Hname.
  assert (Hfound : truthy_string (Some configFilename) = true).
  { unfold truthy_string.
    destruct (String.eqb_spec configFilename ""); [congruence | reflexivity]. }
  rewrite Hfound. cbn [mbind option_bind]. rewrite Hread, Htruthy.
  split; reflexivity.
Qed.

(** X11: [tsconfig.json] is preferred and [jsconfig.json] is used when no
    [tsconfig.json] is found.  With a truthy config read from that file,
    [ts.parseJsonConfigFileContent] is called on it with the workspace
    path, the default options as existing options, the file's name and the
    two markup extensions; the project files are the [fileNames] it
    returns, which [getScriptFileNames] lists without duplicates, and each
    compiler setting is the value in the [options] it returns when there is
    one and the default otherwise.  What those [options] hold for a given
    file is the engine's business. *)
Theorem getLanguageService_reads_config `{Libraries}
    (configFilename : string) (json : Json) :
  ts_findConfigFile workspacePath "tsconfig.json" = Some configFilename \/
  (ts_findConfigFile workspacePath "tsconfig.json" = None /\
   ts_findConfigFile workspacePath "jsconfig.json" = Some configFilename) ->
  configFilename <> "" ->
  ts_readConfigFile configFilename = Some json ->
  truthy_json json = true ->
  let parsedConfig :=
    ts_parseJsonConfigFileContent json workspacePath defaultCompilerOptions
      (Some configFilename) extraFileExtensions in
  files getLanguageService = Some (ts.fileNames parsedConfig) /\
  getScriptFileNames getLanguageService = Ok (unique (ts.fileNames parsedConfig)) /\
  forall name,
    getCompilationSettings getLanguageService !! name =
    match ts.options parsedConfig !! name with
    | Some value => Some value
    | None => defaultCompilerOptions !! name
    end.
Proof.
  intros Hfound Hnonempty Hread Htruthy parsedConfig.
  assert (Hname : or_string (ts_findConfigFile workspacePath "tsconfig.json")
                    (ts_findConfigFile workspacePath "jsconfig.json")
                  = Some configFilename).
  { unfold or_string. destruct Hfound as [->|[-> ->]]; [|reflexivity].
    unfold truthy_string.
    destruct (String.eqb_spec configFilename ""); [congruence | reflexivity]. }
  destruct (getLanguageService_with_config configFilename json
              Hname Hnonempty Hread Htruthy) as [Hfiles Hoptions].
  split; [exact Hfiles|]. split.
  - unfold getScriptFileNames.
    rewrite Hfiles, getLanguageService_documents. fold parsedConfig.
    unfold JsMap.keys, JsMap.empty. simpl map. now rewrite app_nil_r.
  - intros name. unfold getCompilationSettings. rewrite Hoptions, lookup_union.
    fold parsedConfig.
    destruct (ts.options parsedConfig !! name), (defaultCompilerOptions !! name);
      reflexivity.
Qed.

(** X12: a [tsconfig.json] that is found but for which [ts.readConfigFile]
    yields no [config] is not replaced by [jsconfig.json]: whatever
    [jsconfig.json] holds, the defaults are used, [files] stays undefined,
    and [getScriptFileNames] throws in every state the plugin reaches. *)
Theorem unreadable_tsconfig_hides_jsconfig `{Libraries}
    (configFilename : string) (st : LanguageServiceState) :
  ts_findConfigFile workspacePath "tsconfig.json" = Some configFilename ->
  configFilename <> "" ->
  ts_readConfigFile configFilename = None ->
  reachable st ->
  getCompilationSettings st = defaultCompilerOptions /\
  getScriptFileNames st = Throw (TypeError "files is not iterable").
Proof.
  intros Hfound Hnonempty Hread Hreach.
  assert (Hinit : files getLanguageService = None /\
                  compilerOptions getLanguageService = defaultCompilerOptions).
  { assert (Heqb : String.eqb configFilename "" = false)
      by now apply String.eqb_neq.
    unfold getLanguageService. rewrite Hfound. unfold or_string, truthy_string.
    repeat (rewrite Heqb; cbn [negb mbind option_bind]). rewrite Hread.
    split; reflexivity. }
  destruct (reachable_config st Hreach) as [Hfiles Hoptions].
  destruct Hinit as [Hnone Hdefault].
  split; [unfold getCompilationSettings; congruence|].
  unfold getScriptFileNames. rewrite Hfiles, Hnone. reflexivity.
Qed.

(** X13: [getDiagnostics] and [doHover] record the document before they
    query the engine, so the state they leave is that of [updateDocument]
    whatever the engine does; and an exception of the engine comes out
    unchanged, the semantic query not even deciding the outcome once the
    syntactic one has thrown. *)
Theorem engine_exceptions_propagate `{Libraries}
    (st : LanguageServiceState) (document : Document) (position : Position)
    (e : JsError) :
  let st' := (updateDocument st document).1 in
  let lang := languageService st' in
  (getDiagnostics st document).1 = st' /\
  (doHover st document position).1 = st' /\
  (getSyntacticDiagnostics st' lang (getFilePath document) = Throw e ->
     (getDiagnostics st document).2 = Throw e) /\
  (forall syntaxDiagnostics,
     getSyntacticDiagnostics st' lang (getFilePath document) = Ok syntaxDiagnostics ->
     getSemanticDiagnostics st' lang (getFilePath document) = Throw e ->
     (getDiagnostics st document).2 = Throw e) /\
  (getQuickInfoAtPosition st' lang (getFilePath document)
     (offsetAt document position) = Throw e ->
     (doHover st document position).2 = Throw e).
Proof.
  intros st' lang. unfold getDiagnostics, doHover.
  rewrite (surjective_pairing (updateDocument st document)).
  rewrite updateDocument_returns_current. fold st'. fold lang. cbn [fst snd].
  split; [reflexivity|]. split; [reflexivity|]. split; [|split].
  - intros ->. reflexivity.
  - intros syntaxDiagnostics -> ->. reflexivity.
  - intros ->. reflexivity.
Qed.

(** X14: [formatDocument] never resolves with more than one edit, and
    with none exactly for a document of text length 0; it rejects only for
    a non-empty document, and then with the error of prettier's
    configuration lookup or of prettier's formatter. *)
Theorem formatDocument_outcomes `{Libraries} (document : Document) :
  (forall edits,
     formatDocument document = Ok edits ->
     (List.length edits <= 1)%nat /\
     (edits = [] <-> getTextLength document = 0%nat)) /\
  (forall e,
     formatDocument document = Throw e ->
     getTextLength document <> 0%nat /\
     (prettier_resolveConfig (getFilePath document) = Throw e \/
      exists config,
        prettier_resolveConfig (getFilePath document) = Ok config /\
        prettier_format (getText document)
          (<["parser" :=
               JString (parserName (getParserFromTypeAttribute
                                      (attributes_type document)))]>
             (default ∅ config)) = Throw e)).
Proof.
  unfold formatDocument.
  destruct (decide (getTextLength document = 0%nat)) as [Hzero|Hnonzero].
  - split.
    + intros edits [= <-]. split; [simpl; lia | tauto].
    + intros e Hthrow. discriminate.
  - destruct (prettier_resolveConfig (getFilePath document)) as [config|e0];
      step_bind.
    + destruct (prettier_format _ _) as [formattedCode|e1] eqn:Hformat; step_bind.
      * split; [|intros e Hthrow; discriminate].
        intros edits [= <-]. split; [simpl; lia|].
        split; [intros Hnil; discriminate | intros Hzero; contradiction].
      * split; [intros edits Hok; discriminate|].
        intros e [= <-]. split; [exact Hnonzero|]. right.
        exists config. split; [reflexivity | exact Hformat].
    + split; [intros edits Hok; discriminate|].
      intros e [= <-]. split; [exact Hnonzero|]. now left.
Qed.

(** X15: the version strings handed to the engine tell document versions
    apart: two updates report the same string exactly when their documents
    have the same version.  A tracked document of version 0 reports ["0"],
    the string also reported for a file that is not tracked. *)
Theorem getScriptVersion_distinguishes_versions
    (st st' : LanguageServiceState) (document document' : Document) :
  (getScriptVersion (updateDocument st document).1 (getFilePath document) =
   getScriptVersion (updateDocument st' document').1 (getFilePath document')
   <-> version document = version document') /\
  (getScriptVersion (updateDocument st document).1 (getFilePath document) = "0"
   <-> version document = 0).
Proof.
  rewrite !getScriptVersion_after_update. split.
  - split; [apply (inj pretty) | congruence].
  - change "0" with (pretty 0). split; [apply (inj pretty) | congruence].
Qed.

(** ** Closed instances of the further properties *)

(** A declaration file with an upper-case extension is a TypeScript file. *)
Lemma getScriptKindFromFileName_of_extension_witness :
  getScriptKindFromFileName "src/App.d.TS" = ts.TS.
Proof.
  destruct (getScriptKindFromFileName_of_extension "src/App.d" "TS")
    as (_ & _ & Hts & _).
  exact (Hts eq_refl).
Defined.

Lemma getScriptKindFromFileName_without_dot_witness :
  getScriptKindFromFileName "Makefile" = ts.Unknown.
Proof.
  apply getScriptKindFromFileName_without_dot.
  intros before after Hsplit.
  assert (Hin : "."%char ∈ list_ascii_of_string "Makefile").
  { rewrite Hsplit, list_ascii_of_string_app. apply elem_of_app. right. left. }
  apply list_elem_of_In in Hin. simpl in Hin. intuition discriminate.
Defined.

(** The sample file is tracked before and after, and stays the only key. *)
Lemma updateDocument_keeps_insertion_order_witness :
  JsMap.keys (documents (updateDocument sampleState typedDocument).1) = [sampleFile].
Proof.
  destruct (updateDocument_keeps_insertion_order sampleState typedDocument)
    as (Hpresent & _).
  apply Hpresent. left.
Defined.

(** The project file and the tracked file are both listed, once each. *)
Lemma getScriptFileNames_deduplicated_union_witness :
  exists names,
    getScriptFileNames sampleState = Ok names /\ NoDup names /\ sampleFile ∈ names.
Proof.
  destruct (getScriptFileNames_deduplicated_union sampleState
              ["/Users/jamesb/projects/Aircast/frontend/src/main.ts"] eq_refl)
    as (names & Hnames & Hnodup & Hmembers).
  exists names. split; [exact Hnames|]. split; [exact Hnodup|].
  apply Hmembers. right. eexists. reflexivity.
Defined.

Lemma replaced_services_are_disposed_witness :
  Disposed 0%nat ∈ events (updateDocument sampleState typedDocument).1 /\
  Disposed 1%nat ∉ events (updateDocument sampleState typedDocument).1.
Proof.
  destruct (@replaced_services_are_disposed sampleLibraries
              (updateDocument sampleState typedDocument).1
              (@reachable_update sampleLibraries _ _ sampleState_reachable))
    as (_ & Hdisposed & Hcurrent).
  split; [|exact Hcurrent]. apply Hdisposed. simpl. lia.
Defined.

(** Untyped, typed, typed, untyped: two changes of kind, so service 2. *)
Lemma restarts_count_kind_changes_witness :
  languageService
    (updateAll (@getLanguageService sampleLibraries)
       [untypedDocument; typedDocument; typedDocument; untypedDocument]) = 2%nat.
Proof.
  rewrite (@restarts_count_kind_changes sampleLibraries
             (@getLanguageService sampleLibraries) sampleFile
             [untypedDocument; typedDocument; typedDocument; untypedDocument]
             (@reachable_init sampleLibraries)).
  - reflexivity.
  - repeat constructor.
Defined.

Lemma updateDocument_leaves_other_files_witness :
  getScriptVersion (updateDocument sampleState typedDocument).1 otherFile = "0" /\
  @getScriptSnapshot sampleLibraries (updateDocument sampleState typedDocument).1
    otherFile = OfString "".
Proof.
  assert (Hne : getFilePath typedDocument <> otherFile) by (vm_compute; discriminate).
  destruct (@updateDocument_leaves_other_files sampleLibraries sampleState
              typedDocument otherFile Hne) as (_ & Hversion & Hsnapshot).
  cbv zeta in Hversion, Hsnapshot. rewrite Hversion, Hsnapshot.
  split; reflexivity.
Defined.

Lemma configuration_is_fixed_witness :
  files (updateDocument sampleState typedDocument).1 =
  Some ["/Users/jamesb/projects/Aircast/frontend/src/main.ts"].
Proof.
  destruct (@configuration_is_fixed sampleLibraries
              (updateDocument sampleState typedDocument).1
              (@reachable_update sampleLibraries _ _ sampleState_reachable))
    as (_ & Hfiles & _).
  rewrite Hfiles. reflexivity.
Defined.

(** In the sample world the options returned for [tsconfig.json] hold
    [strict] and not [allowJs], which keeps its default. *)
Lemma getLanguageService_reads_config_witness :
  getCompilationSettings (@getLanguageService sampleLibraries) !! "strict" =
    Some (ts.Bool true) /\
  getCompilationSettings (@getLanguageService sampleLibraries) !! "allowJs" =
    Some (ts.Bool true).
Proof.
  assert (Hnonempty : "/Users/jamesb/projects/Aircast/frontend/tsconfig.json" <> "")
    by discriminate.
  destruct (@getLanguageService_reads_config sampleLibraries
              "/Users/jamesb/projects/Aircast/frontend/tsconfig.json" (JObject [])
              (or_introl eq_refl) Hnonempty eq_refl eq_refl)
    as (_ & _ & Hoptions).
  rewrite !Hoptions. split; reflexivity.
Defined.

(** In the broken world [jsconfig.json] is readable, and still unused. *)
Lemma unreadable_tsconfig_hides_jsconfig_witness :
  @ts_readConfigFile brokenLibraries
    "/Users/jamesb/projects/Aircast/frontend/jsconfig.json" = Some (JObject []) /\
  getScriptFileNames (@getLanguageService brokenLibraries) =
    Throw (TypeError "files is not iterable").
Proof.
  split; [reflexivity|].
  assert (Hnonempty : "/Users/jamesb/projects/Aircast/frontend/tsconfig.json" <> "")
    by discriminate.
  apply (@unreadable_tsconfig_hides_jsconfig brokenLibraries
           "/Users/jamesb/projects/Aircast/frontend/tsconfig.json"
           (@getLanguageService brokenLibraries) eq_refl Hnonempty eq_refl
           (@reachable_init brokenLibraries)).
Defined.

(** The engine's failure comes out of [getDiagnostics], and the document
    is recorded all the same. *)
Lemma engine_exceptions_propagate_witness :
  (@getDiagnostics brokenLibraries (@getLanguageService brokenLibraries)
     typedDocument).2 = Throw (LibraryError "Debug Failure.") /\
  getScriptVersion
    (@getDiagnostics brokenLibraries (@getLanguageService brokenLibraries)
       typedDocument).1 sampleFile = "2".
Proof.
  destruct (@engine_exceptions_propagate brokenLibraries
              (@getLanguageService brokenLibraries) typedDocument
              {| line := 0; character := 0 |} (LibraryError "Debug Failure."))
    as (Hstate & _ & Hsyntax & _).
  cbv zeta in Hstate, Hsyntax. split; [exact (Hsyntax eq_refl)|].
  rewrite Hstate. reflexivity.
Defined.

(** Prettier's syntax error rejects the formatting of a non-empty document. *)
Lemma formatDocument_outcomes_witness :
  @formatDocument brokenLibraries typedDocument =
    Throw (LibraryError "SyntaxError: Unexpected token") /\
  getTextLength typedDocument <> 0%nat.
Proof.
  split; [reflexivity|].
  destruct (@formatDocument_outcomes brokenLibraries typedDocument) as [_ Hthrow].
  exact (proj1 (Hthrow _ eq_refl)).
Defined.
